(** * Boids: a shallow embedding of the flocking simulation

    The simulation lives in [boid.js] (class [Boid]), [main.js] (classes
    [Obstacle] and [Runner]) and [sidebar.js] (class [Controller]).

    JavaScript numbers are modelled as real numbers: rounding, infinities
    and NaN are outside the model.  The two places where the source
    divides zero by zero are marked: the obstacle scan of a boid at rest,
    where the comparison with NaN is written out, and the avoidance scan
    of two boids at the very same point.
    Objects mutated in place become records that are passed and returned;
    the array of boids, which every boid reads while it is being updated,
    is a list updated by index. *)

From Stdlib Require Import Reals Lra Lia List ZArith String Ascii.
From stdpp Require Import base list.
Open Scope R_scope.

(** ** Vectors *)

Module Point.

(** Modelled from the spec: the vector type [paper.Point] comes from the
    paper.js library, whose code is not part of the repository; a vector
    is a pair of coordinates. *)
Record t : Type := mk { x : R; y : R }.

(** Modelled from the spec: [new Point()], the zero vector of VectorMath. *)
Definition zero : t := mk 0 0.

(** Modelled from the spec: the operations [add], [sub], [scale(k)] and
    [dot] of VectorMath, under the names paper.js gives them;
    [divide(k)] scales by the inverse. *)
Definition add (p q : t) : t := mk (x p + x q) (y p + y q).
Definition subtract (p q : t) : t := mk (x p - x q) (y p - y q).
Definition multiply (p : t) (k : R) : t := mk (x p * k) (y p * k).
Definition divide (p : t) (k : R) : t := mk (x p / k) (y p / k).
Definition dot (p q : t) : R := x p * x q + y p * y q.

(** Modelled from the spec: [length] of VectorMath, the [length] getter. *)
Definition length (p : t) : R := sqrt (x p * x p + y p * y p).

(** Modelled from the spec: [setLength(L)] of VectorMath, the [length]
    setter [p.length = l]; on a zero-length vector it gives the zero
    vector and does not divide. *)
Definition setLength (p : t) (l : R) : t :=
  if Req_dec_T (length p) 0 then zero else multiply p (l / length p).

(** Modelled from the spec: [normalize] of VectorMath; the zero vector
    on a zero-length vector. *)
Definition normalize (p : t) : t := setLength p 1.

(** Modelled from the spec: the heading of a vector, which the interface
    for rendering exposes; [Math.atan2] in radians, 0 for the zero
    vector. *)
Definition atan2 (b a : R) : R :=
  if Rlt_dec 0 a then atan (b / a)
  else if Rlt_dec a 0 then
         if Rle_dec 0 b then atan (b / a) + PI else atan (b / a) - PI
  else if Rlt_dec 0 b then PI / 2
  else if Rlt_dec b 0 then - (PI / 2)
  else 0.

(** Modelled from the spec: the [angle] getter, the heading in degrees. *)
Definition angle (p : t) : R := atan2 (y p) (x p) * 180 / PI.

End Point.

(** ** Data model *)

(** [this.weights], the four entries of [parameters["weights"]], each
    read through its ["data"] entry. *)
Record Weights : Type := mkWeights {
  cohesion : R;
  avoidance : R;
  following : R;
  obstacles : R
}.

(** A fill colour: a CSS string, or the object
    [{hue: _, saturation: _, lightness: _}]. *)
Inductive Color : Type :=
| Css (name : string)
| Hsl (hue saturation lightness : R).

(** [this.instance], the paper.js item that draws the boid: the
    attributes the simulation reads or writes. *)
Record Item : Type := mkItem {
  position : Point.t;
  rotation : R;
  fillColor : Color
}.

Record Boid : Type := mkBoid {
  velocity : Point.t;
  instance : Item;
  weights : Weights;
  followRadius : R;
  avoidRadius : R;
  maxSpeed : R;
  maxForce : R
}.

Module Obstacle.
(** [class Obstacle]: [instance.position] of the circle and the radius. *)
Record t : Type := mk { position : Point.t; affectRadius : R }.
End Obstacle.

(** [view.size] *)
Record Size : Type := mkSize { width : R; height : R }.

(** Field assignments. *)
Definition set_velocity (this : Boid) (v : Point.t) : Boid :=
  mkBoid v (instance this) (weights this) (followRadius this)
         (avoidRadius this) (maxSpeed this) (maxForce this).

Definition set_instance (this : Boid) (it : Item) : Boid :=
  mkBoid (velocity this) it (weights this) (followRadius this)
         (avoidRadius this) (maxSpeed this) (maxForce this).

Definition set_position (this : Boid) (p : Point.t) : Boid :=
  set_instance this
    (mkItem p (rotation (instance this)) (fillColor (instance this))).

Definition set_rotation (this : Boid) (a : R) : Boid :=
  set_instance this
    (mkItem (position (instance this)) a (fillColor (instance this))).

Definition set_fillColor (this : Boid) (c : Color) : Boid :=
  set_instance this
    (mkItem (position (instance this)) (rotation (instance this)) c).

(** ** The methods of [Boid] *)

Definition applyForce (this : Boid) (force : Point.t) : Boid :=
  set_velocity this (Point.add (velocity this) force).

Definition getSteer (this : Boid) (desired : Point.t) : Point.t :=
  if Req_dec_T (Point.length desired) 0 then Point.zero
  else
    let desired := Point.setLength desired (maxSpeed this) in
    let steer := Point.subtract desired (velocity this) in
    if Rgt_dec (Point.length steer) (maxForce this)
    then Point.setLength steer (maxForce this)
    else steer.

(** The body of [for (let i in boids)] in [getCohesionVector]; the
    accumulators are [centerOfMass] and [numBoidsSeen]. *)
Fixpoint cohesion_loop (this : Boid) (boids : list Boid)
    (centerOfMass : Point.t) (numBoidsSeen : nat) : Point.t * nat :=
  match boids with
  | [] => (centerOfMass, numBoidsSeen)
  | b :: rest =>
      let displacement :=
        Point.subtract (position (instance b)) (position (instance this)) in
      if Rlt_dec (Point.length displacement) (followRadius this)
      then cohesion_loop this rest
             (Point.add centerOfMass (position (instance b))) (S numBoidsSeen)
      else cohesion_loop this rest centerOfMass numBoidsSeen
  end.

(** The vector [getCohesionVector] hands to [getSteer]. *)
Definition cohesion_desired (this : Boid) (boids : list Boid) : Point.t :=
  let '(centerOfMass, numBoidsSeen) := cohesion_loop this boids Point.zero 0 in
  let centerOfMass :=
    if (0 <? numBoidsSeen)%nat
    then Point.divide centerOfMass (INR numBoidsSeen)
    else centerOfMass in
  Point.subtract centerOfMass (position (instance this)).

Definition getCohesionVector (this : Boid) (boids : list Boid) : Point.t :=
  getSteer this (cohesion_desired this boids).

(** In the two loops below [boids[i] != this] compares object identities:
    [this] is the element of the array at index [self], and [i] counts the
    elements already visited.  For another boid at the very same point
    the quotient in [avoidance_loop] is [0 / 0]; the model follows the
    division of the real numbers there, which gives the zero vector. *)
Fixpoint avoidance_loop (self : nat) (this : Boid) (i : nat)
    (boids : list Boid) (avoidanceVector : Point.t) : Point.t :=
  match boids with
  | [] => avoidanceVector
  | b :: rest =>
      let displacement :=
        Point.subtract (position (instance b)) (position (instance this)) in
      if Nat.eq_dec i self then avoidance_loop self this (S i) rest avoidanceVector
      else if Rlt_dec (Point.length displacement) (avoidRadius this)
      then avoidance_loop self this (S i) rest
             (Point.subtract avoidanceVector
                (Point.divide (Point.normalize displacement)
                              (Point.length displacement)))
      else avoidance_loop self this (S i) rest avoidanceVector
  end.

Definition getAvoidanceVector (self : nat) (this : Boid) (boids : list Boid)
    : Point.t :=
  getSteer this (avoidance_loop self this 0 boids Point.zero).

(** The sentinel [closestDist] starts from. *)
Definition closestDist0 : R := 99999999999.

(** The orthogonal projection from the line of flight to the obstacle. *)
Definition perp_of (this : Boid) (o : Obstacle.t) : Point.t :=
  let disp := Point.subtract (Obstacle.position o) (position (instance this)) in
  Point.subtract disp
    (Point.multiply (velocity this)
       (Point.dot disp (velocity this)
        / (Point.length (velocity this) * Point.length (velocity this)))).

(** The loop of [getObstacleVector].  For a boid at rest the quotient is
    [0 / 0], which is NaN in JavaScript: [perp] is NaN in both
    coordinates and [perp.length < affectRadius] is false. *)
Fixpoint obstacle_loop (this : Boid) (obs : list Obstacle.t)
    (obstacleVector : Point.t) (closestDist : R) : Point.t * R :=
  match obs with
  | [] => (obstacleVector, closestDist)
  | o :: rest =>
      let disp :=
        Point.subtract (Obstacle.position o) (position (instance this)) in
      if Req_dec_T (Point.length (velocity this)) 0
      then obstacle_loop this rest obstacleVector closestDist
      else
        let perp := perp_of this o in
        if Rlt_dec (Point.length perp) (Obstacle.affectRadius o)
        then
          if Rlt_dec (Point.length disp) closestDist
          then obstacle_loop this rest (Point.multiply perp (-1)) (Point.length disp)
          else obstacle_loop this rest obstacleVector closestDist
        else obstacle_loop this rest obstacleVector closestDist
  end.

Definition getObstacleVector (this : Boid) (obs : list Obstacle.t) : Point.t :=
  let obstacleVector := fst (obstacle_loop this obs Point.zero closestDist0) in
  if Rgt_dec (Point.length obstacleVector) 0
  then Point.normalize obstacleVector
  else obstacleVector.

(** The loop of [getFollowVector]. *)
Fixpoint follow_loop (self : nat) (this : Boid) (i : nat)
    (boids : list Boid) (avgVelocity : Point.t) (numBoidsSeen : nat)
    : Point.t * nat :=
  match boids with
  | [] => (avgVelocity, numBoidsSeen)
  | b :: rest =>
      let displacement :=
        Point.subtract (position (instance b)) (position (instance this)) in
      if Nat.eq_dec i self
      then follow_loop self this (S i) rest avgVelocity numBoidsSeen
      else if Rlt_dec (Point.length displacement) (followRadius this)
      then follow_loop self this (S i) rest
             (Point.add avgVelocity (velocity b)) (S numBoidsSeen)
      else follow_loop self this (S i) rest avgVelocity numBoidsSeen
  end.

(** [avgVelocity.divide(numBoidsSeen)] builds a new point and the source
    drops it: the accumulated sum is what reaches [getSteer]. *)
Definition getFollowVector (self : nat) (this : Boid) (boids : list Boid)
    : Point.t :=
  let '(avgVelocity, numBoidsSeen) :=
    follow_loop self this 0 boids Point.zero 0 in
  getSteer this avgVelocity.

(** [Point.random().subtract(new Point(.5, .5)).multiply(2 * .1)]; the
    random point [rnd] is an input of the model. *)
Definition noise_of (rnd : Point.t) : Point.t :=
  Point.multiply (Point.subtract rnd (Point.mk (5 / 10) (5 / 10))) (2 * (1 / 10)).

Definition updateVelocity (self : nat) (this : Boid) (boids : list Boid)
    (obs : list Obstacle.t) (rnd : Point.t) : Boid :=
  let cohesion := Point.multiply (getCohesionVector this boids)
                                 (cohesion (weights this)) in
  let avoidance := Point.multiply (getAvoidanceVector self this boids)
                                  (avoidance (weights this)) in
  let follow := Point.multiply (getFollowVector self this boids)
                               (following (weights this)) in
  let obstacleVec := Point.multiply (getObstacleVector this obs)
                                    (obstacles (weights this)) in
  let noise := noise_of rnd in
  let this := applyForce this cohesion in
  let this := applyForce this avoidance in
  let this := applyForce this follow in
  let this := applyForce this obstacleVec in
  let this := applyForce this noise in
  if Rgt_dec (Point.length (velocity this)) (maxSpeed this)
  then set_velocity this (Point.setLength (velocity this) (maxSpeed this))
  else this.

(** One coordinate of [checkBorders]. *)
Definition wrap (bound c : R) : R :=
  if Rgt_dec c bound then 0
  else if Rlt_dec c 0 then bound
  else c.

Definition checkBorders (view_size : Size) (this : Boid) : Boid :=
  let p := position (instance this) in
  set_position this
    (Point.mk (wrap (width view_size) (Point.x p))
              (wrap (height view_size) (Point.y p))).

Definition update (view_size : Size) (this : Boid) : Boid :=
  let this := set_rotation this (Point.angle (velocity this)) in
  let this :=
    set_position this (Point.add (position (instance this)) (velocity this)) in
  let this := checkBorders view_size this in
  set_fillColor this (Hsl (Point.angle (velocity this)) 1 (6 / 10)).

(** ** The runner *)

(** [parameters]: the ["data"] entries of the three categories
    [overall], [weights] and [perceptionRadii]. *)
Record Parameters : Type := mkParameters {
  p_numBoids : Z;
  p_maxSpeed : R;
  p_maxForce : R;
  p_obstacleAffectRadius : R;
  p_weights : Weights;
  p_followRadius : R;
  p_avoidRadius : R
}.

Record Runner : Type := mkRunner {
  numBoids : Z;
  defaultVelocity : R;
  r_maxSpeed : R;
  r_maxForce : R;
  obstacleAffectRadius : R;
  r_weights : Weights;
  boids : list Boid;
  obstacle_list : list Obstacle.t
}.

(** What a call leaves behind: a value, or an exception. *)
Inductive outcome (A : Type) : Type :=
| Returned (a : A)
| Thrown (message : string).
Arguments Returned {A} a.
Arguments Thrown {A} message.

(** [this.boidColor], the colour of the template path. *)
Definition boidColor : Color := Css "#34c0eb".

(** [new Boid(position, velocity, boidTemplate, weights, perceptionRadii,
    maxSpeed, maxForce, asSymbol)], the fields the simulation uses. *)
Definition new_Boid (pos vel : Point.t) (w : Weights)
    (follow avoid : R) (maxSpeed maxForce : R) : Boid :=
  mkBoid vel (mkItem pos 0 boidColor) w follow avoid maxSpeed maxForce.

(** [new Point({length: l, angle: a})], with [a] in degrees. *)
Definition point_polar (l a : R) : Point.t :=
  Point.mk (l * cos (a * PI / 180)) (l * sin (a * PI / 180)).

(** The loop [for (var i = 0; i < this.numBoids; i++)] of the
    constructor.  [rnd_pos i] and [rnd_angle i] are the values of
    [Point.random()] and [Math.random()] drawn in round [i]. *)
Fixpoint generate_boids (fuel : nat) (i : Z) (view_size : Size)
    (p : Parameters) (rnd_pos : Z -> Point.t) (rnd_angle : Z -> R)
    (acc : list Boid) : list Boid :=
  match fuel with
  | O => acc
  | S fuel' =>
      if (i <? p_numBoids p)%Z then
        let newPosition :=
          Point.mk (Point.x (rnd_pos i) * width view_size)
                   (Point.y (rnd_pos i) * height view_size) in
        let newVelocity := point_polar 3 (rnd_angle i * 360) in
        generate_boids fuel' (i + 1) view_size p rnd_pos rnd_angle
          (acc ++ [new_Boid newPosition newVelocity (p_weights p)
                     (p_followRadius p) (p_avoidRadius p)
                     (p_maxSpeed p) (p_maxForce p)])
      else acc
  end.

(** [new Runner(parameters)].  No statement of the constructor throws;
    the loop runs [numBoids] times when that is positive and not at all
    otherwise. *)
Definition new_Runner (view_size : Size) (p : Parameters)
    (rnd_pos : Z -> Point.t) (rnd_angle : Z -> R) : outcome Runner :=
  Returned
    (mkRunner (p_numBoids p) 3 (p_maxSpeed p) (p_maxForce p)
       (p_obstacleAffectRadius p) (p_weights p)
       (generate_boids (Z.to_nat (p_numBoids p)) 0 view_size p
          rnd_pos rnd_angle [])
       []).

(** [onMouseDown(event)] *)
Definition onMouseDown (r : Runner) (point : Point.t) : Runner :=
  mkRunner (numBoids r) (defaultVelocity r) (r_maxSpeed r) (r_maxForce r)
    (obstacleAffectRadius r) (r_weights r) (boids r)
    (obstacle_list r ++ [Obstacle.mk point (obstacleAffectRadius r)]).

(** [this.boids[i].react(this.boids, this.obstacles)]: the boid at index
    [i] is replaced, in the array every other boid reads, by the boid with
    its new velocity. *)
Definition react (i : nat) (bs : list Boid) (obs : list Obstacle.t)
    (rnd : Point.t) : list Boid :=
  match bs !! i with
  | Some this => <[ i := updateVelocity i this bs obs rnd ]> bs
  | None => bs
  end.

(** The first loop of [onFrame]; [rnd i] is the random point drawn by
    boid [i] in this frame. *)
Definition react_all (bs : list Boid) (obs : list Obstacle.t)
    (rnd : nat -> Point.t) : list Boid :=
  fold_left (fun bs i => react i bs obs (rnd i)) (seq 0 (length bs)) bs.

(** The second loop of [onFrame]. *)
Definition update_all (view_size : Size) (bs : list Boid) : list Boid :=
  fold_left
    (fun bs i =>
       match bs !! i with
       | Some this => <[ i := update view_size this ]> bs
       | None => bs
       end)
    (seq 0 (length bs)) bs.

(** [onFrame()], without the frame counter. *)
Definition onFrame (view_size : Size) (bs : list Boid)
    (obs : list Obstacle.t) (rnd : nat -> Point.t) : list Boid :=
  update_all view_size (react_all bs obs rnd).



(** ** The sidebar *)

(** The characters kept by [replace(/[^0-9\.]/g, '')]. *)
Definition allowed_char (c : ascii) : bool :=
  let n := nat_of_ascii c in
  ((48 <=? n)%nat && (n <=? 57)%nat) || (n =? 46)%nat.

Fixpoint validateChars (s : string) : string :=
  match s with
  | EmptyString => EmptyString
  | String c rest =>
      if allowed_char c then String c (validateChars rest)
      else validateChars rest
  end.

(** ** The forces of one frame, added up *)

(** The five vectors [updateVelocity] hands to [applyForce], as one sum. *)
Definition total_force (self : nat) (this : Boid) (boids : list Boid)
    (obs : list Obstacle.t) (rnd : Point.t) : Point.t :=
  Point.add
    (Point.add
       (Point.add
          (Point.add
             (Point.multiply (getCohesionVector this boids)
                             (cohesion (weights this)))
             (Point.multiply (getAvoidanceVector self this boids)
                             (avoidance (weights this))))
          (Point.multiply (getFollowVector self this boids)
                          (following (weights this))))
       (Point.multiply (getObstacleVector this obs) (obstacles (weights this))))
    (noise_of rnd).

(** [if (v.length > m) v.length = m] *)
Definition clamp_to (v : Point.t) (m : R) : Point.t :=
  if Rgt_dec (Point.length v) m then Point.setLength v m else v.

(** A series of clicks, each handled by [onMouseDown]. *)
Definition clicks (r : Runner) (points : list Point.t) : Runner :=
  fold_left onMouseDown points r.

(** ** The script version of the boid, [development/boid.js] *)

Module Dev.

(** The function [window.Boid] keeps its weights in an array and its
    radii in [perceptionRadius] and [avoidanceRadius]; the record [Boid]
    stands for it, with [weights[0]] to [weights[3]] the four fields of
    [Weights] in their order and the two radii [followRadius] and
    [avoidRadius].  [getSteer], [getCohesionVector], [getAvoidanceVector]
    and [checkBorders] are those of the class, statement by statement. *)

(** [getFollowVector]: here [avgVelocity /= numBoidsSeen] assigns. *)
Definition getFollowVector (self : nat) (this : Boid) (boids : list Boid)
    : Point.t :=
  let '(avgVelocity, numBoidsSeen) :=
    follow_loop self this 0 boids Point.zero 0 in
  let avgVelocity :=
    if (0 <? numBoidsSeen)%nat
    then Point.divide avgVelocity (INR numBoidsSeen)
    else avgVelocity in
  getSteer this avgVelocity.

(** [getObstacleVector]: the loop of the class, then
    [return obstacleVector.normalize()] without a test. *)
Definition getObstacleVector (this : Boid) (obs : list Obstacle.t) : Point.t :=
  Point.normalize (fst (obstacle_loop this obs Point.zero closestDist0)).

(** [applyForce(boids, obstacles)]: the four weighted vectors are added
    up first and then added to the velocity. *)
Definition applyForce (self : nat) (this : Boid) (boids : list Boid)
    (obs : list Obstacle.t) (rnd : Point.t) : Boid :=
  let this :=
    set_velocity this
      (Point.add (velocity this)
         (Point.add
            (Point.add
               (Point.add
                  (Point.multiply (getCohesionVector this boids)
                                  (cohesion (weights this)))
                  (Point.multiply (getAvoidanceVector self this boids)
                                  (avoidance (weights this))))
               (Point.multiply (getFollowVector self this boids)
                               (following (weights this))))
            (Point.multiply (getObstacleVector this obs)
                            (obstacles (weights this))))) in
  let this :=
    set_velocity this
      (Point.add (velocity this)
         (Point.multiply
            (Point.multiply
               (Point.subtract rnd (Point.mk (5 / 10) (5 / 10))) 2)
            (1 / 10))) in
  if Rgt_dec (Point.length (velocity this)) (maxSpeed this)
  then set_velocity this (Point.setLength (velocity this) (maxSpeed this))
  else this.

End Dev.

(** ** The first version of the boid, with three rules *)

Module Legacy.

(** [weights[0]], [weights[1]] and [weights[2]]. *)
Record Weights : Type := mkWeights { w0 : R; w1 : R; w2 : R }.

(** The fields the function [Boid(position, velocity, boidSymbol,
    weights, perceptionRadii, maxSpeed)] sets and its methods use;
    [position] and [rotation] are those of [this.instance]. *)
Record Boid : Type := mkBoid {
  velocity : Point.t;
  position : Point.t;
  rotation : R;
  weights : Weights;
  perceptionRadius : R;
  avoidanceRadius : R;
  maxSpeed : R
}.

Definition set_velocity (this : Boid) (v : Point.t) : Boid :=
  mkBoid v (position this) (rotation this) (weights this)
         (perceptionRadius this) (avoidanceRadius this) (maxSpeed this).

Definition set_position (this : Boid) (p : Point.t) : Boid :=
  mkBoid (velocity this) p (rotation this) (weights this)
         (perceptionRadius this) (avoidanceRadius this) (maxSpeed this).

Definition set_rotation (this : Boid) (a : R) : Boid :=
  mkBoid (velocity this) (position this) a (weights this)
         (perceptionRadius this) (avoidanceRadius this) (maxSpeed this).

(** The loops read the global array [boids]; it is a parameter here, and
    [self] is the index [this] has in it. *)
Fixpoint cohesion_loop (self : nat) (this : Boid) (i : nat)
    (boids : list Boid) (cohesionVector : Point.t) (numBoidsSeen : nat)
    : Point.t * nat :=
  match boids with
  | [] => (cohesionVector, numBoidsSeen)
  | b :: rest =>
      let displacement := Point.subtract (position b) (position this) in
      if Nat.eq_dec i self
      then cohesion_loop self this (S i) rest cohesionVector numBoidsSeen
      else if Rlt_dec (Point.length displacement) (perceptionRadius this)
      then cohesion_loop self this (S i) rest
             (Point.add cohesionVector
                (Point.divide
                   (Point.multiply (Point.normalize displacement)
                      (perceptionRadius this - Point.length displacement))
                   (perceptionRadius this)))
             (S numBoidsSeen)
      else cohesion_loop self this (S i) rest cohesionVector numBoidsSeen
  end.

Definition getCohesionVector (self : nat) (this : Boid) (boids : list Boid)
    : Point.t :=
  let '(cohesionVector, numBoidsSeen) :=
    cohesion_loop self this 0 boids Point.zero 0 in
  let cohesionVector :=
    if (0 <? numBoidsSeen)%nat
    then Point.divide cohesionVector (INR numBoidsSeen)
    else cohesionVector in
  Point.normalize cohesionVector.

Fixpoint avoidance_loop (self : nat) (this : Boid) (i : nat)
    (boids : list Boid) (avoidanceVector : Point.t) : Point.t :=
  match boids with
  | [] => avoidanceVector
  | b :: rest =>
      let displacement := Point.subtract (position b) (position this) in
      if Nat.eq_dec i self
      then avoidance_loop self this (S i) rest avoidanceVector
      else if Rlt_dec (Point.length displacement) (avoidanceRadius this)
      then avoidance_loop self this (S i) rest
             (Point.subtract avoidanceVector
                (Point.divide
                   (Point.multiply (Point.normalize displacement)
                      (avoidanceRadius this - Point.length displacement))
                   (avoidanceRadius this)))
      else avoidance_loop self this (S i) rest avoidanceVector
  end.

Definition getAvoidanceVector (self : nat) (this : Boid) (boids : list Boid)
    : Point.t :=
  Point.normalize (avoidance_loop self this 0 boids Point.zero).

Fixpoint follow_loop (self : nat) (this : Boid) (i : nat)
    (boids : list Boid) (followVector : Point.t) (numBoidsSeen : nat)
    : Point.t * nat :=
  match boids with
  | [] => (followVector, numBoidsSeen)
  | b :: rest =>
      let displacement := Point.subtract (position b) (position this) in
      if Nat.eq_dec i self
      then follow_loop self this (S i) rest followVector numBoidsSeen
      else if Rlt_dec (Point.length displacement) (perceptionRadius this)
      then follow_loop self this (S i) rest
             (Point.add followVector
                (Point.divide
                   (Point.multiply
                      (Point.subtract (velocity b) (velocity this))
                      (perceptionRadius this - Point.length displacement))
                   (perceptionRadius this)))
             (S numBoidsSeen)
      else follow_loop self this (S i) rest followVector numBoidsSeen
  end.

Definition getFollowVector (self : nat) (this : Boid) (boids : list Boid)
    : Point.t :=
  let '(followVector, numBoidsSeen) :=
    follow_loop self this 0 boids Point.zero 0 in
  let followVector :=
    if (0 <? numBoidsSeen)%nat
    then Point.divide followVector (INR numBoidsSeen)
    else followVector in
  Point.normalize followVector.

(** [applyForce()]; [rnd] is the value of [Point.random()]. *)
Definition applyForce (self : nat) (this : Boid) (boids : list Boid)
    (rnd : Point.t) : Boid :=
  let this :=
    set_velocity this
      (Point.add (velocity this)
         (Point.add
            (Point.add
               (Point.multiply (getCohesionVector self this boids)
                               (w0 (weights this)))
               (Point.multiply (getAvoidanceVector self this boids)
                               (w1 (weights this))))
            (Point.multiply (getFollowVector self this boids)
                            (w2 (weights this))))) in
  let this :=
    set_velocity this
      (Point.add (velocity this)
         (Point.multiply
            (Point.multiply
               (Point.subtract rnd (Point.mk (5 / 10) (5 / 10))) 2)
            (1 / 100))) in
  let this :=
    set_velocity this
      (Point.setLength (velocity this)
         (Point.length (velocity this) + 1 / 10)) in
  if Rgt_dec (Point.length (velocity this)) (maxSpeed this)
  then set_velocity this (Point.setLength (velocity this) (maxSpeed this))
  else this.

(** The right-hand side of the first assignment of [applyForce], and the
    velocity after its second assignment. *)
Definition rules (self : nat) (this : Boid) (boids : list Boid) : Point.t :=
  Point.add
    (Point.add
       (Point.multiply (getCohesionVector self this boids) (w0 (weights this)))
       (Point.multiply (getAvoidanceVector self this boids) (w1 (weights this))))
    (Point.multiply (getFollowVector self this boids) (w2 (weights this))).

Definition pushed (self : nat) (this : Boid) (boids : list Boid)
    (rnd : Point.t) : Point.t :=
  Point.add
    (Point.add (velocity this) (rules self this boids))
    (Point.multiply
       (Point.multiply (Point.subtract rnd (Point.mk (5 / 10) (5 / 10))) 2)
       (1 / 100)).

(** No boid of the array other than the one at [self] is closer than
    [radius]; [i] is the index of the head of the array. *)
Definition out_of_reach (self : nat) (this : Boid) (radius : R) (i : nat)
    (boids : list Boid) : Prop :=
  forall (j : nat) (b : Boid),
    boids !! j = Some b -> (i + j)%nat <> self ->
    radius <= Point.length (Point.subtract (position b) (position this)).

Definition checkBorders (view_size : Size) (this : Boid) : Boid :=
  set_position this
    (Point.mk (wrap (width view_size) (Point.x (position this)))
              (wrap (height view_size) (Point.y (position this)))).

Definition update (view_size : Size) (this : Boid) : Boid :=
  let this := set_rotation this (Point.angle (velocity this)) in
  let this := set_position this (Point.add (position this) (velocity this)) in
  checkBorders view_size this.

End Legacy.

(** ** The helper [centroid] *)

(** [centroid(boid)] reads [segments[0]], [segments[1]] and
    [segments[3]]; reading [.point] of a segment that is not there
    throws, which is [None] here. *)
Definition centroid (segments : list Point.t) : option Point.t :=
  match segments !! 0%nat, segments !! 1%nat, segments !! 3%nat with
  | Some s0, Some s1, Some s3 =>
      let vertex := s0 in
      let opposite :=
        Point.subtract s1 (Point.divide (Point.subtract s1 s3) 2) in
      Some (Point.add vertex
              (Point.divide (Point.multiply (Point.subtract opposite vertex) 2) 3))
  | _, _, _ => None
  end.

(** ** The words of the specification *)

(** The distance test of a radius query, as a boolean. *)
Definition within (this : Boid) (radius : R) (b : Boid) : bool :=
  if Rlt_dec
       (Point.length
          (Point.subtract (position (instance b)) (position (instance this))))
       radius
  then true else false.

(** NeighborQuery: the agents other than the one at index [self] whose
    distance to it is strictly less than [radius]. *)
Definition neighborsWithin (self : nat) (this : Boid) (radius : R)
    (boids : list Boid) : list Boid :=
  map snd
    (List.filter (fun ib => negb (fst ib =? self)%nat && within this radius (snd ib))
       (zip (seq 0 (length boids)) boids)).

(** The radius query without the exclusion of the agent itself. *)
Definition allWithin (this : Boid) (radius : R) (boids : list Boid)
    : list Boid :=
  List.filter (within this radius) boids.

Definition sum_points (ps : list Point.t) : Point.t :=
  fold_right Point.add Point.zero ps.

(** The average of a list of vectors; zero when there is none. *)
Definition average (ps : list Point.t) : Point.t :=
  match ps with
  | [] => Point.zero
  | _ => Point.divide (sum_points ps) (INR (length ps))
  end.

(** Following: steer toward the average velocity of the other agents
    within [followRadius]. *)
Definition spec_following (self : nat) (this : Boid) (boids : list Boid)
    : Point.t :=
  getSteer this
    (average (map velocity (neighborsWithin self this (followRadius this) boids))).

(** Cohesion: steer toward the average position of all agents within
    [followRadius]; the raw desired vector is zero if there is none. *)
Definition spec_cohesion_desired (this : Boid) (boids : list Boid) : Point.t :=
  match allWithin this (followRadius this) boids with
  | [] => Point.zero
  | seen =>
      Point.subtract (average (map (fun b => position (instance b)) seen))
                     (position (instance this))
  end.

(** Obstacle avoidance: an obstacle qualifies when its perpendicular
    offset is shorter than its radius. *)
Definition qualifies (this : Boid) (o : Obstacle.t) : Prop :=
  Point.length (perp_of this o) < Obstacle.affectRadius o.

Definition displacement_distance (this : Boid) (o : Obstacle.t) : R :=
  Point.length
    (Point.subtract (Obstacle.position o) (position (instance this))).

(** The vector from a boid to another one, [displacement] in the scans. *)
Definition displacement_to (this b : Boid) : Point.t :=
  Point.subtract (position (instance b)) (position (instance this)).

(** The parameters a boid is constructed with. *)
Definition parameters_of (b : Boid) : Weights * R * R * R * R :=
  (weights b, followRadius b, avoidRadius b, maxSpeed b, maxForce b).

(** The positions of the view rectangle, edges included. *)
Definition in_view (view_size : Size) (p : Point.t) : Prop :=
  0 <= Point.x p <= width view_size /\ 0 <= Point.y p <= height view_size.

(** ** Sample data *)

Definition no_weights : Weights := mkWeights 0 0 0 0.

(** The random point that makes the noise vanish. *)
Definition rnd_centre : nat -> Point.t := fun _ => Point.mk (5 / 10) (5 / 10).

Definition view100 : Size := mkSize 100 50.

(** A boid of a uniform flock: radii 100 and 30, top speed 6, top force 10. *)
Definition sample_boid (pos vel : Point.t) (w : Weights) : Boid :=
  new_Boid pos vel w 100 30 6 10.


(** A boid that has reached the right edge, and one left of the left edge. *)
Definition boid_at_width : Boid :=
  sample_boid (Point.mk 100 10) (Point.mk 1 0) no_weights.

Definition boid_at_minus5 : Boid :=
  sample_boid (Point.mk (-5) 10) (Point.mk 1 0) no_weights.

(** A boid at the origin flying right at speed 1, and one already at top
    speed. *)
Definition boid_origin : Boid :=
  sample_boid Point.zero (Point.mk 1 0) no_weights.

Definition boid_top_speed : Boid :=
  sample_boid Point.zero (Point.mk 6 0) no_weights.

(** A boid at [(3, 4)], at rest, with [followRadius] set to 0. *)
Definition boid_blind : Boid :=
  new_Boid (Point.mk 3 4) Point.zero (mkWeights 1 0 0 0) 0 0 5 10.

(** An obstacle ahead of [boid_origin], above its line of flight. *)
Definition obstacle_ahead : Obstacle.t := Obstacle.mk (Point.mk 3 4) 5.




(** A configuration with a negative count and negative radii. *)
Definition negative_parameters : Parameters :=
  mkParameters (-1) 6 (3 / 100) (-100) (mkWeights 1 4 2 (4 / 10)) (-100) (-30).

Definition rnd_pos0 : Z -> Point.t := fun _ => Point.mk (1 / 2) (1 / 2).
Definition rnd_angle0 : Z -> R := fun _ => 0.

(** A boid at rest with a small top force, and a thin obstacle off the
    line of flight of [boid_origin]. *)
Definition boid_still : Boid :=
  new_Boid Point.zero Point.zero no_weights 100 30 6 3.

Definition obstacle_thin : Obstacle.t := Obstacle.mk (Point.mk 3 4) 1.

(** A boid at rest at the origin, an obstacle 7 pixels behind
    [boid_origin] and 4 above its line of flight, and a boid well out of
    sight of [boid_origin]. *)
Definition boid_resting : Boid :=
  sample_boid Point.zero Point.zero no_weights.

Definition obstacle_behind : Obstacle.t := Obstacle.mk (Point.mk (-7) 4) 5.

Definition boid_far : Boid :=
  sample_boid (Point.mk 500 0) (Point.mk 0 1) no_weights.

(** A boid 3 pixels right of the origin, within every radius of
    [boid_origin]. *)
Definition boid_near : Boid :=
  sample_boid (Point.mk 3 0) (Point.mk 0 1) no_weights.


Definition slow_parameters : Parameters :=
  mkParameters 70 2 (3 / 100) 100 (mkWeights 1 4 2 (4 / 10)) 100 30.

(** Two boids of the first version, 3 pixels apart, in sight of each
    other, and one of them alone. *)
Definition old_boid (pos vel : Point.t) : Legacy.Boid :=
  Legacy.mkBoid vel pos 0 (Legacy.mkWeights (2 / 10) (3 / 10) (2 / 10)) 200 50 7.

Definition old_a : Legacy.Boid := old_boid (Point.mk 0 0) (Point.mk 3 0).
Definition old_b : Legacy.Boid := old_boid (Point.mk 3 0) (Point.mk 0 3).
Definition old_far : Legacy.Boid := old_boid (Point.mk 500 0) (Point.mk 0 3).

(** * Properties *)

(** ** Vector facts *)

Section PointFacts.

Implicit Types p q : Point.t.

Lemma point_eq p q : Point.x p = Point.x q -> Point.y p = Point.y q -> p = q.
Proof. destruct p, q; simpl; intros -> ->; reflexivity. Qed.

Lemma point_neq_x (p q : Point.t) : Point.x p <> Point.x q -> p <> q.
Proof. intros H E. apply H. rewrite E. reflexivity. Qed.


Lemma sumsq_nonneg (a b : R) : 0 <= a * a + b * b.
Proof. nra. Qed.

Lemma length_nonneg p : 0 <= Point.length p.
Proof. apply sqrt_pos. Qed.

Lemma length_sqr p :
  Point.length p * Point.length p = Point.x p * Point.x p + Point.y p * Point.y p.
Proof. unfold Point.length. apply sqrt_sqrt, sumsq_nonneg. Qed.

Lemma length_zero_iff p : Point.length p = 0 <-> p = Point.zero.
Proof.
  split.
  - intros H. pose proof (length_sqr p) as Hs. rewrite H in Hs.
    apply point_eq; simpl; nra.
  - intros ->. unfold Point.length; simpl.
    replace (0 * 0 + 0 * 0) with 0 by ring. apply sqrt_0.
Qed.

Lemma length_eq p (r : R) :
  0 <= r -> Point.x p * Point.x p + Point.y p * Point.y p = r * r ->
  Point.length p = r.
Proof.
  intros Hr H. unfold Point.length. rewrite H. apply sqrt_square, Hr.
Qed.

Lemma length_lt p (r : R) :
  0 < r -> Point.x p * Point.x p + Point.y p * Point.y p < r * r ->
  Point.length p < r.
Proof.
  intros Hr H. pose proof (length_nonneg p). pose proof (length_sqr p). nra.
Qed.

Lemma length_le p (r : R) :
  0 <= r -> Point.x p * Point.x p + Point.y p * Point.y p <= r * r ->
  Point.length p <= r.
Proof.
  intros Hr H. pose proof (length_nonneg p). pose proof (length_sqr p). nra.
Qed.

Lemma length_ge p (r : R) :
  r * r <= Point.x p * Point.x p + Point.y p * Point.y p ->
  r <= Point.length p.
Proof.
  intros H. pose proof (length_nonneg p). pose proof (length_sqr p). nra.
Qed.

Lemma length_gt p (r : R) :
  r * r < Point.x p * Point.x p + Point.y p * Point.y p ->
  r < Point.length p.
Proof.
  intros H. pose proof (length_nonneg p). pose proof (length_sqr p). nra.
Qed.

Lemma length_multiply p (k : R) :
  Point.length (Point.multiply p k) = Rabs k * Point.length p.
Proof.
  unfold Point.length, Point.multiply; simpl.
  replace (Point.x p * k * (Point.x p * k) + Point.y p * k * (Point.y p * k))
    with ((k * k) * (Point.x p * Point.x p + Point.y p * Point.y p)) by ring.
  rewrite sqrt_mult_alt by nra.
  f_equal. replace (k * k) with (k ^ 2) by ring.
  rewrite <- Rsqr_pow2. apply sqrt_Rsqr_abs.
Qed.

(** Setting the length of a vector that has one gives it that length,
    up to the sign of the requested length. *)
Lemma length_setLength p (l : R) :
  Point.length p <> 0 -> Point.length (Point.setLength p l) = Rabs l.
Proof.
  intros Hp. unfold Point.setLength.
  destruct (Req_dec_T (Point.length p) 0) as [E|_]; [contradiction|].
  rewrite length_multiply. unfold Rdiv. rewrite Rabs_mult.
  rewrite (Rabs_inv (Point.length p)).
  rewrite (Rabs_right (Point.length p)) by (apply Rle_ge, length_nonneg).
  field. exact Hp.
Qed.

Lemma setLength_zero (l : R) : Point.setLength Point.zero l = Point.zero.
Proof.
  unfold Point.setLength.
  destruct (Req_dec_T (Point.length Point.zero) 0) as [_|N]; [reflexivity|].
  exfalso. apply N. apply length_zero_iff. reflexivity.
Qed.

(** The [length] setter only looks at the direction of the vector:
    a positive multiple of [p] is sent to the same vector as [p]. *)
Lemma setLength_multiply_pos p (k l : R) :
  0 < k -> Point.setLength (Point.multiply p k) l = Point.setLength p l.
Proof.
  intros Hk. unfold Point.setLength.
  rewrite length_multiply, (Rabs_right k) by lra.
  destruct (Req_dec_T (Point.length p) 0) as [E|N].
  - rewrite E, Rmult_0_r.
    destruct (Req_dec_T 0 0) as [_|N]; [reflexivity|contradiction].
  - destruct (Req_dec_T (k * Point.length p) 0) as [E|_].
    + exfalso. apply Rmult_integral in E. destruct E; [lra|contradiction].
    + apply point_eq; simpl; field; split; (lra || assumption).
Qed.


Lemma add_zero_r p : Point.add p Point.zero = p.
Proof. apply point_eq; simpl; ring. Qed.

Lemma add_zero_l p : Point.add Point.zero p = p.
Proof. apply point_eq; simpl; ring. Qed.

End PointFacts.

(** ** The apply phase: [update] and [checkBorders] *)

Section Borders.

Variable view_size : Size.

Lemma wrap_range (bound c : R) :
  0 <= bound -> 0 <= wrap bound c <= bound.
Proof.
  intros Hb. unfold wrap.
  destruct (Rgt_dec c bound) as [G|G]; [lra|].
  destruct (Rlt_dec c 0) as [L|L]; lra.
Qed.

Lemma wrap_above (bound c : R) : c > bound -> wrap bound c = 0.
Proof.
  intros G. unfold wrap. destruct (Rgt_dec c bound); [reflexivity|contradiction].
Qed.

Lemma wrap_at_bound (bound : R) : 0 <= bound -> wrap bound bound = bound.
Proof.
  intros Hb. unfold wrap.
  destruct (Rgt_dec bound bound) as [G|_]; [lra|].
  destruct (Rlt_dec bound 0) as [L|_]; [lra|reflexivity].
Qed.

Lemma wrap_below (bound c : R) : c <= bound -> c < 0 -> wrap bound c = bound.
Proof.
  intros Hc L. unfold wrap.
  destruct (Rgt_dec c bound) as [G|_]; [lra|].
  destruct (Rlt_dec c 0); [reflexivity|contradiction].
Qed.






End Borders.

(** The second loop of [onFrame] applies [update] to every boid. *)
Lemma update_all_prefix (view_size : Size) (bs : list Boid) (k : nat) :
  (k <= length bs)%nat ->
  fold_left
    (fun bs i =>
       match bs !! i with
       | Some this => <[ i := update view_size this ]> bs
       | None => bs
       end)
    (seq 0 k) bs
  = map (update view_size) (take k bs) ++ drop k bs.
Proof.
  induction k as [|k IH]; intros Hk.
  - simpl. rewrite drop_0. reflexivity.
  - rewrite seq_S, fold_left_app, IH by lia. simpl.
    destruct (lookup_lt_is_Some_2 bs k ltac:(lia)) as [b Hb].
    assert (Hlen : length (map (update view_size) (take k bs)) = k)
      by (rewrite length_map, length_take; lia).
    rewrite lookup_app_r by lia. rewrite Hlen, Nat.sub_diag.
    rewrite lookup_drop, Nat.add_0_r, Hb.
    rewrite insert_app_r_alt by lia. rewrite Hlen, Nat.sub_diag.
    rewrite (drop_S _ _ _ Hb). simpl.
    rewrite (take_S_r _ _ _ Hb), map_app, <- app_assoc. reflexivity.
Qed.

Lemma update_all_map (view_size : Size) (bs : list Boid) :
  update_all view_size bs = map (update view_size) bs.
Proof.
  unfold update_all. rewrite update_all_prefix by lia.
  rewrite firstn_all, drop_all, app_nil_r. reflexivity.
Qed.

(** ** The react phase: [updateVelocity] *)

Section React.

Variables (obs : list Obstacle.t) (rnd : nat -> Point.t).




(** The state of the array after the first [k] rounds of the first loop
    of [onFrame]: the boids from [k] on are untouched, and the boid at
    [i < k] was computed from the array as it stood in round [i]. *)
Lemma react_prefix (bs : list Boid) (k : nat) :
  (k <= length bs)%nat ->
  let l := fold_left (fun bs i => react i bs obs (rnd i)) (seq 0 k) bs in
  length l = length bs /\
  drop k l = drop k bs /\
  (forall (i : nat) (b : Boid), (i < k)%nat -> bs !! i = Some b ->
     l !! i = Some (updateVelocity i b (take i l ++ drop i bs) obs (rnd i))).
Proof.
  induction k as [|k IH]; intros Hk; cbv zeta.
  - simpl. split; [reflexivity|]. split; [reflexivity|]. intros; lia.
  - rewrite seq_S, fold_left_app. simpl.
    destruct (IH ltac:(lia)) as (Hlen & Hdrop & Hpre).
    set (l := fold_left (fun bs i => react i bs obs (rnd i)) (seq 0 k) bs) in *.
    destruct (lookup_lt_is_Some_2 bs k ltac:(lia)) as [b Hb].
    assert (Hlk : l !! k = Some b).
    { rewrite <- (Nat.add_0_r k), <- lookup_drop, Hdrop, lookup_drop,
        Nat.add_0_r. exact Hb. }
    unfold react. rewrite Hlk.
    split; [|split].
    + rewrite length_insert. exact Hlen.
    + rewrite drop_insert_lt by lia.
      replace (S k) with (k + 1)%nat by lia.
      rewrite <- !drop_drop, Hdrop. reflexivity.
    + intros i b' Hi Hb'.
      rewrite take_insert_ge by lia.
      destruct (decide (i = k)) as [->|Hne].
      * rewrite list_lookup_insert_eq by lia.
        rewrite Hb in Hb'. injection Hb' as <-.
        rewrite <- Hdrop, take_drop. reflexivity.
      * rewrite list_lookup_insert_ne by lia.
        apply Hpre; [lia | exact Hb'].
Qed.

(** Every boid leaves the first loop as [updateVelocity] of itself,
    computed on an array in which the boids before it already carry their
    new velocity and the boids from it on are as the frame found them. *)
Lemma react_all_lookup (bs : list Boid) (i : nat) (b : Boid) :
  bs !! i = Some b ->
  react_all bs obs rnd !! i =
  Some (updateVelocity i b (take i (react_all bs obs rnd) ++ drop i bs)
          obs (rnd i)).
Proof.
  intros Hb. unfold react_all.
  destruct (react_prefix bs (length bs) ltac:(lia)) as (_ & _ & H).
  apply H; [eapply lookup_lt_Some; exact Hb | exact Hb].
Qed.

Lemma react_all_length (bs : list Boid) :
  length (react_all bs obs rnd) = length bs.
Proof.
  unfold react_all.
  destruct (react_prefix bs (length bs) ltac:(lia)) as (H & _ & _). exact H.
Qed.


End React.

(** ** Evaluation on concrete inputs *)

(** Decide the comparisons of real numbers left in the goal. *)
Ltac decide_R :=
  repeat match goal with
         | |- context [Rgt_dec ?a ?b] => destruct (Rgt_dec a b); try lra
         | |- context [Rlt_dec ?a ?b] => destruct (Rlt_dec a b); try lra
         | |- context [Rle_dec ?a ?b] => destruct (Rle_dec a b); try lra
         | |- context [Req_dec_T ?a ?b] => destruct (Req_dec_T a b); try lra
         end.




(** ** The frame: speed bound, domain and frame conditions *)






(** C4, as the code has it: a coordinate strictly beyond the upper bound
    goes to 0, a coordinate below 0 goes to the upper bound, and a
    coordinate exactly at the upper bound stays there: the boid at
    [(width, 10)] keeps [x = width], the boid at [(-5, 10)] gets
    [x = width]. *)
Theorem checkBorders_wrap (view_size : Size) (this : Boid) (c : R) :
  0 <= width view_size ->
  let x_after (x0 : R) :=
    Point.x (position (instance
      (checkBorders view_size (set_position this (Point.mk x0 c))))) in
  (forall x0, x0 > width view_size -> x_after x0 = 0) /\
  (forall x0, x0 < 0 -> x_after x0 = width view_size) /\
  x_after (width view_size) = width view_size /\
  x_after (-5) = width view_size.
Proof.
  intros Hw x_after. unfold x_after. simpl.
  split; [|split; [|split]].
  - intros x0 H. apply wrap_above, H.
  - intros x0 H. apply wrap_below; lra.
  - apply wrap_at_bound, Hw.
  - apply wrap_below; lra.
Qed.

Lemma checkBorders_wrap_witness :
  0 <= width view100 /\
  Point.x (position (instance
    (checkBorders view100 (set_position boid_at_width (Point.mk 150 10))))) = 0 /\
  Point.x (position (instance (checkBorders view100 boid_at_width))) = 100 /\
  Point.x (position (instance (checkBorders view100 boid_at_minus5))) = 100.
Proof.
  assert (Hw : 0 <= width view100) by (simpl; lra).
  pose proof (checkBorders_wrap view100 boid_at_width 10 Hw) as H.
  destruct H as (Habove & _ & H1 & H2).
  split; [exact Hw|]. split; [|split; [exact H1 | exact H2]].
  apply Habove. simpl. lra.
Defined.

(** C4 as stated fails: the boid at [(width, 10)] does not get [x = 0]. *)
Lemma checkBorders_at_width_not_zero :
  Point.x (position (instance (checkBorders view100 boid_at_width))) <> 0.
Proof.
  simpl. unfold wrap. decide_R.
Qed.

(** C10: [update] writes the position, the rotation and the fill colour
    of the item and nothing else: velocity, weights, radii, top speed and
    top force are those of the boid it was given, so the velocity of every
    boid at the end of the frame is the one the first loop left, and its
    length is still within [maxSpeed]. *)
Theorem update_frame (view_size : Size) (this : Boid) (bs : list Boid)
    (obs : list Obstacle.t) (rnd : nat -> Point.t) :
  velocity (update view_size this) = velocity this /\
  weights (update view_size this) = weights this /\
  followRadius (update view_size this) = followRadius this /\
  avoidRadius (update view_size this) = avoidRadius this /\
  maxSpeed (update view_size this) = maxSpeed this /\
  maxForce (update view_size this) = maxForce this /\
  rotation (instance (update view_size this)) = Point.angle (velocity this) /\
  fillColor (instance (update view_size this)) =
    Hsl (Point.angle (velocity this)) 1 (6 / 10) /\
  map velocity (onFrame view_size bs obs rnd) =
    map velocity (react_all bs obs rnd) /\
  map maxSpeed (onFrame view_size bs obs rnd) =
    map maxSpeed (react_all bs obs rnd).
Proof.
  repeat (split; [reflexivity|]).
  unfold onFrame. rewrite update_all_map.
  split; rewrite map_map; apply map_ext; intros b; reflexivity.
Qed.

(** ** The steering function *)

Section Steering.

Variable this : Boid.

Lemma getSteer_zero : getSteer this Point.zero = Point.zero.
Proof.
  unfold getSteer.
  destruct (Req_dec_T (Point.length Point.zero) 0) as [_|N]; [reflexivity|].
  exfalso. apply N, length_zero_iff. reflexivity.
Qed.

(** [getSteer] only looks at the direction of the vector it is given. *)
Lemma getSteer_multiply_pos (desired : Point.t) (k : R) :
  0 < k -> getSteer this (Point.multiply desired k) = getSteer this desired.
Proof.
  intros Hk. unfold getSteer.
  rewrite setLength_multiply_pos by exact Hk.
  rewrite length_multiply, (Rabs_right k) by lra.
  destruct (Req_dec_T (Point.length desired) 0) as [E|N];
    destruct (Req_dec_T (k * Point.length desired) 0) as [E'|N'];
    try reflexivity.
  - exfalso. apply N'. rewrite E. ring.
  - exfalso. apply Rmult_integral in E'. destruct E'; [lra|contradiction].
Qed.

Lemma getSteer_bounded (desired : Point.t) :
  0 <= maxForce this -> Point.length (getSteer this desired) <= maxForce this.
Proof.
  intros Hf. unfold getSteer.
  destruct (Req_dec_T (Point.length desired) 0) as [E|N].
  - rewrite (proj2 (length_zero_iff Point.zero)) by reflexivity. exact Hf.
  - cbv zeta.
    match goal with |- context [Rgt_dec ?a ?b] => destruct (Rgt_dec a b) as [G|G] end.
    + rewrite length_setLength by lra. rewrite Rabs_right by lra. lra.
    + lra.
Qed.

(** The two branches of [getSteer] on a vector that has a length. *)
Lemma getSteer_unclamped (desired : Point.t) :
  desired <> Point.zero ->
  let raw :=
    Point.subtract
      (Point.multiply desired (maxSpeed this / Point.length desired))
      (velocity this) in
  Point.length raw <= maxForce this -> getSteer this desired = raw.
Proof.
  intros Hd raw Hle.
  assert (N : Point.length desired <> 0).
  { intros E. apply Hd, length_zero_iff, E. }
  unfold getSteer, Point.setLength.
  destruct (Req_dec_T (Point.length desired) 0); [contradiction|].
  cbv zeta. fold raw.
  destruct (Rgt_dec (Point.length raw) (maxForce this)); [lra|reflexivity].
Qed.

Lemma getSteer_clamped (desired : Point.t) :
  desired <> Point.zero ->
  let raw :=
    Point.subtract
      (Point.multiply desired (maxSpeed this / Point.length desired))
      (velocity this) in
  Point.length raw > maxForce this ->
  getSteer this desired = Point.multiply raw (maxForce this / Point.length raw).
Proof.
  intros Hd raw Hgt.
  assert (N : Point.length desired <> 0).
  { intros E. apply Hd, length_zero_iff, E. }
  assert (Ht : Point.setLength desired (maxSpeed this) =
               Point.multiply desired (maxSpeed this / Point.length desired)).
  { unfold Point.setLength.
    destruct (Req_dec_T (Point.length desired) 0); [contradiction|reflexivity]. }
  unfold getSteer.
  destruct (Req_dec_T (Point.length desired) 0); [contradiction|].
  cbv zeta. rewrite Ht. fold raw.
  destruct (Rgt_dec (Point.length raw) (maxForce this)); [|contradiction].
  unfold Point.setLength.
  destruct (Req_dec_T (Point.length raw) 0) as [E|_]; [|reflexivity].
  apply length_zero_iff in E. rewrite E.
  apply point_eq; simpl; ring.
Qed.

(** With [maxForce = 0] there is no steering at all. *)
Lemma getSteer_no_force (desired : Point.t) :
  maxForce this = 0 -> getSteer this desired = Point.zero.
Proof.
  intros Hf.
  pose proof (getSteer_bounded desired) as Hb. rewrite Hf in Hb.
  apply length_zero_iff.
  pose proof (length_nonneg (getSteer this desired)). lra.
Qed.

(** C5, as the code has it: [getSteer] of the zero vector is the zero
    vector; of any other vector it is that vector rescaled to length
    [maxSpeed], minus the velocity of the boid, cut back to length
    [maxForce] when it is longer, and its length is at most [maxForce].
    The zero vector is also the result when the rescaled vector is the
    velocity the boid already has, and when [maxForce] is 0. *)
Theorem getSteer_spec (desired : Point.t) :
  (desired = Point.zero -> getSteer this desired = Point.zero) /\
  (desired <> Point.zero ->
   let target := Point.multiply desired (maxSpeed this / Point.length desired) in
   let raw := Point.subtract target (velocity this) in
   (0 <= maxSpeed this -> Point.length target = maxSpeed this) /\
   (Point.length raw <= maxForce this -> getSteer this desired = raw) /\
   (Point.length raw > maxForce this ->
    getSteer this desired = Point.multiply raw (maxForce this / Point.length raw)) /\
   (target = velocity this -> getSteer this desired = Point.zero)) /\
  (0 <= maxForce this -> Point.length (getSteer this desired) <= maxForce this) /\
  (maxForce this = 0 -> getSteer this desired = Point.zero).
Proof.
  split; [|split; [|split]].
  - intros ->. apply getSteer_zero.
  - intros Hd target raw.
    assert (N : Point.length desired <> 0).
    { intros E. apply Hd, length_zero_iff, E. }
    split; [|split; [|split]].
    + intros Hm. unfold target. rewrite length_multiply.
      unfold Rdiv. rewrite Rabs_mult, Rabs_inv.
      rewrite (Rabs_right (maxSpeed this)) by lra.
      rewrite (Rabs_right (Point.length desired))
        by (apply Rle_ge, length_nonneg).
      field. exact N.
    + apply getSteer_unclamped, Hd.
    + apply getSteer_clamped, Hd.
    + intros Ht.
      assert (Hraw : raw = Point.zero).
      { unfold raw. rewrite Ht. apply point_eq; simpl; ring. }
      destruct (Rle_or_lt (Point.length raw) (maxForce this)) as [Hle|Hgt].
      * rewrite (getSteer_unclamped desired Hd Hle). exact Hraw.
      * rewrite (getSteer_clamped desired Hd Hgt).
        unfold raw, target in Hraw. rewrite Hraw.
        apply point_eq; simpl; ring.
  - apply getSteer_bounded.
  - apply getSteer_no_force.
Qed.

End Steering.

Lemma length_3_4 : Point.length (Point.mk 3 4) = 5.
Proof. apply length_eq; simpl; lra. Qed.

Lemma getSteer_spec_witness :
  getSteer boid_origin Point.zero = Point.zero /\
  getSteer boid_origin (Point.mk 3 4) =
    Point.subtract (Point.multiply (Point.mk 3 4) (6 / 5)) (Point.mk 1 0) /\
  Point.length (getSteer boid_origin (Point.mk 3 4)) <= 10 /\
  getSteer boid_still (Point.mk 3 4) = Point.mk (18 / 10) (24 / 10).
Proof.
  destruct (getSteer_spec boid_origin Point.zero) as (H0 & _ & _).
  destruct (getSteer_spec boid_origin (Point.mk 3 4)) as (_ & H1 & H2 & _).
  destruct (getSteer_spec boid_still (Point.mk 3 4)) as (_ & H3 & _).
  assert (Hne : Point.mk 3 4 <> Point.zero).
  { intros E. apply (f_equal Point.x) in E. simpl in E. lra. }
  destruct (H1 Hne) as (_ & Hraw & _).
  destruct (H3 Hne) as (_ & _ & Hcut & _).
  assert (Hl : Point.length
                 (Point.subtract (Point.multiply (Point.mk 3 4) (6 / 5)) Point.zero)
               = 6) by (apply length_eq; simpl; lra).
  split; [exact (H0 eq_refl)|]. split; [|split].
  - rewrite Hraw.
    + simpl. rewrite length_3_4. reflexivity.
    + simpl maxSpeed. simpl velocity. simpl maxForce. rewrite length_3_4.
      apply length_le; simpl; lra.
  - apply H2. simpl. lra.
  - rewrite Hcut.
    + simpl maxSpeed. simpl velocity. simpl maxForce.
      rewrite length_3_4, Hl. apply point_eq; simpl; lra.
    + simpl maxSpeed. simpl velocity. simpl maxForce.
      rewrite length_3_4, Hl. lra.
Defined.

(** C5 as stated fails: the zero vector is not returned for the zero
    vector only.  A boid already at top speed in the desired direction
    gets the zero vector for a desired vector that is not zero. *)
Lemma getSteer_zero_at_top_speed :
  Point.mk 1 0 <> Point.zero /\
  getSteer boid_top_speed (Point.mk 1 0) = Point.zero.
Proof.
  split; [apply point_neq_x; simpl; lra|].
  assert (Hl : Point.length (Point.mk 1 0) = 1) by (apply length_eq; simpl; lra).
  unfold getSteer. rewrite Hl.
  destruct (Req_dec_T 1 0) as [E|_]; [lra|].
  unfold Point.setLength. rewrite Hl.
  destruct (Req_dec_T 1 0) as [E|_]; [lra|]. simpl.
  replace (Point.subtract (Point.multiply (Point.mk 1 0) (6 / 1)) (Point.mk 6 0))
    with Point.zero by (apply point_eq; simpl; lra).
  rewrite (proj2 (length_zero_iff Point.zero)) by reflexivity.
  destruct (Rgt_dec 0 10) as [G|_]; [lra|reflexivity].
Qed.

(** ** The neighbour scans *)

Section Scans.

Variables (self : nat) (this : Boid).

Lemma add_assoc (p q r : Point.t) :
  Point.add (Point.add p q) r = Point.add p (Point.add q r).
Proof. apply point_eq; simpl; ring. Qed.

Lemma within_true (radius : R) (b : Boid) :
  Point.length
    (Point.subtract (position (instance b)) (position (instance this))) < radius ->
  within this radius b = true.
Proof.
  intros H. unfold within.
  destruct (Rlt_dec _ radius); [reflexivity|contradiction].
Qed.

Lemma within_false (radius : R) (b : Boid) :
  ~ Point.length
      (Point.subtract (position (instance b)) (position (instance this))) < radius ->
  within this radius b = false.
Proof.
  intros H. unfold within.
  destruct (Rlt_dec _ radius); [contradiction|reflexivity].
Qed.

(** The loop of [getFollowVector] adds up the velocities of the
    neighbours and counts them. *)
Lemma follow_loop_sum (bs : list Boid) :
  forall (i : nat) (acc : Point.t) (n : nat),
    let seen :=
      map snd
        (List.filter
           (fun ib => negb (fst ib =? self)%nat
                      && within this (followRadius this) (snd ib))
           (zip (seq i (length bs)) bs)) in
    follow_loop self this i bs acc n =
    (Point.add acc (sum_points (map velocity seen)), (n + length seen)%nat).
Proof.
  induction bs as [|b rest IH]; intros i acc n seen.
  - simpl. rewrite add_zero_r, Nat.add_0_r. reflexivity.
  - subst seen. simpl.
    destruct (Nat.eq_dec i self) as [E|NE].
    + rewrite (proj2 (Nat.eqb_eq i self) E). simpl. apply IH.
    + rewrite (proj2 (Nat.eqb_neq i self) NE). simpl.
      destruct (Rlt_dec _ (followRadius this)) as [L|L].
      * rewrite (within_true _ _ L). simpl.
        rewrite IH, add_assoc. f_equal. lia.
      * rewrite (within_false _ _ L). apply IH.
Qed.

(** The loop of [getCohesionVector] adds up the positions of all boids
    within the radius, the boid itself among them, and counts them. *)
Lemma cohesion_loop_sum (bs : list Boid) :
  forall (acc : Point.t) (n : nat),
    let seen := allWithin this (followRadius this) bs in
    cohesion_loop this bs acc n =
    (Point.add acc (sum_points (map (fun b => position (instance b)) seen)),
     (n + length seen)%nat).
Proof.
  induction bs as [|b rest IH]; intros acc n seen.
  - simpl. rewrite add_zero_r, Nat.add_0_r. reflexivity.
  - subst seen. unfold allWithin. simpl.
    destruct (Rlt_dec _ (followRadius this)) as [L|L].
    + rewrite (within_true _ _ L). simpl.
      rewrite IH, add_assoc. unfold allWithin. f_equal. lia.
    + rewrite (within_false _ _ L). apply IH.
Qed.

Lemma divide_multiply (p : Point.t) (k : R) :
  Point.divide p k = Point.multiply p (/ k).
Proof. reflexivity. Qed.

(** [getSteer] of a sum is [getSteer] of the average. *)
Lemma getSteer_average (ps : list Point.t) :
  getSteer this (average ps) = getSteer this (sum_points ps).
Proof.
  destruct ps as [|p ps]; [reflexivity|].
  unfold average. rewrite divide_multiply.
  apply getSteer_multiply_pos. apply Rinv_0_lt_compat.
  apply lt_0_INR. simpl. lia.
Qed.

(** C7: the following force is the steering function applied to the
    average velocity of the other boids closer than [followRadius]; with
    no such boid it is the zero vector. *)
Theorem getFollowVector_spec (bs : list Boid) :
  getFollowVector self this bs = spec_following self this bs /\
  (neighborsWithin self this (followRadius this) bs = [] ->
   getFollowVector self this bs = Point.zero).
Proof.
  assert (H : getFollowVector self this bs = spec_following self this bs).
  { unfold getFollowVector, spec_following, neighborsWithin.
    rewrite follow_loop_sum. cbv zeta.
    rewrite getSteer_average, add_zero_l. reflexivity. }
  split; [exact H|].
  intros Hn. rewrite H. unfold spec_following. rewrite Hn. simpl.
  apply getSteer_zero.
Qed.

(** The part of C6 that holds: when some boid is within [followRadius],
    cohesion steers toward the average position of all boids within it,
    the boid itself included. *)
Lemma cohesion_desired_seen (bs : list Boid) :
  allWithin this (followRadius this) bs <> [] ->
  cohesion_desired this bs = spec_cohesion_desired this bs.
Proof.
  intros Hs. unfold cohesion_desired, spec_cohesion_desired.
  rewrite cohesion_loop_sum. cbv zeta. rewrite add_zero_l, Nat.add_0_l.
  destruct (allWithin this (followRadius this) bs) as [|b seen];
    [contradiction|].
  unfold average. rewrite length_map. reflexivity.
Qed.

(** With no boid within [followRadius], the vector handed to [getSteer]
    is the position of the boid, negated. *)
Lemma cohesion_desired_unseen (bs : list Boid) :
  allWithin this (followRadius this) bs = [] ->
  cohesion_desired this bs =
  Point.subtract Point.zero (position (instance this)).
Proof.
  intros Hs. unfold cohesion_desired.
  rewrite cohesion_loop_sum. cbv zeta. rewrite Hs, add_zero_l. reflexivity.
Qed.

End Scans.

Lemma getFollowVector_spec_witness :
  neighborsWithin 0 boid_origin (followRadius boid_origin) [boid_origin] = [] /\
  getFollowVector 0 boid_origin [boid_origin] = Point.zero.
Proof.
  assert (H : neighborsWithin 0 boid_origin (followRadius boid_origin)
                [boid_origin] = []) by reflexivity.
  split; [exact H|].
  exact (proj2 (getFollowVector_spec 0 boid_origin [boid_origin]) H).
Defined.

(** A boid whose [followRadius] is not positive sees no boid, not even
    itself, and its cohesion steers it toward the origin of the page. *)
Lemma cohesion_desired_blind (this : Boid) (bs : list Boid) :
  followRadius this <= 0 ->
  allWithin this (followRadius this) bs = [] /\
  cohesion_desired this bs =
  Point.subtract Point.zero (position (instance this)).
Proof.
  intros Hr.
  assert (H : allWithin this (followRadius this) bs = []).
  { unfold allWithin. induction bs as [|b rest IH]; [reflexivity|].
    simpl. rewrite within_false; [exact IH|].
    pose proof (length_nonneg
      (Point.subtract (position (instance b)) (position (instance this)))).
    lra. }
  split; [exact H | apply cohesion_desired_unseen, H].
Qed.

(** C6 on a flock of one boid with [followRadius = 0], at [(3, 4)] and at
    rest: no boid qualifies, the specification asks for the zero vector,
    and the code hands [(-3, -4)] to [getSteer], which returns it as the
    cohesion force. *)
Theorem cohesion_unseen_steers_to_origin :
  allWithin boid_blind (followRadius boid_blind) [boid_blind] = [] /\
  spec_cohesion_desired boid_blind [boid_blind] = Point.zero /\
  cohesion_desired boid_blind [boid_blind] = Point.mk (-3) (-4) /\
  getCohesionVector boid_blind [boid_blind] = Point.mk (-3) (-4).
Proof.
  destruct (cohesion_desired_blind boid_blind [boid_blind]) as [Hs Hd];
    [simpl; lra|].
  assert (Hd' : cohesion_desired boid_blind [boid_blind] = Point.mk (-3) (-4)).
  { rewrite Hd. apply point_eq; simpl; lra. }
  assert (Hl : Point.length (Point.mk (-3) (-4)) = 5)
    by (apply length_eq; simpl; lra).
  split; [exact Hs|]. split; [|split; [exact Hd'|]].
  - unfold spec_cohesion_desired. rewrite Hs. reflexivity.
  - unfold getCohesionVector. rewrite Hd'.
    assert (Hne : Point.mk (-3) (-4) <> Point.zero).
    { intros E. apply (f_equal Point.x) in E. simpl in E. lra. }
    rewrite (getSteer_unclamped boid_blind _ Hne).
    + rewrite Hl. apply point_eq; simpl; lra.
    + rewrite Hl. apply length_le; simpl; lra.
Qed.

(** ** The obstacle scan *)

Section Obstacles.

Variable this : Boid.
Hypothesis moving : velocity this <> Point.zero.

Lemma moving_length : Point.length (velocity this) <> 0.
Proof. intros E. apply moving, length_zero_iff, E. Qed.


(** What the loop of [getObstacleVector] leaves in its two variables:
    either nothing was hit closer than [closestDist], or they hold the
    negated offset and the distance of a hit that no other hit beats. *)
Lemma obstacle_loop_closest (obs : list Obstacle.t) :
  forall (vec : Point.t) (cd : R),
    (obstacle_loop this obs vec cd = (vec, cd) /\
     forall o, In o obs -> qualifies this o -> cd <= displacement_distance this o)
    \/
    (exists o, In o obs /\ qualifies this o /\
       displacement_distance this o < cd /\
       obstacle_loop this obs vec cd =
         (Point.multiply (perp_of this o) (-1), displacement_distance this o) /\
       forall o', In o' obs -> qualifies this o' ->
         displacement_distance this o <= displacement_distance this o').
Proof.
  induction obs as [|o rest IH]; intros vec cd.
  - left. split; [reflexivity | intros o []].
  - simpl.
    destruct (Req_dec_T (Point.length (velocity this)) 0) as [E|_];
      [exfalso; exact (moving_length E)|].
    fold (displacement_distance this o).
    destruct (Rlt_dec (Point.length (perp_of this o)) (Obstacle.affectRadius o))
      as [Q|Q].
    + destruct (Rlt_dec (displacement_distance this o) cd) as [C|C].
      * destruct (IH (Point.multiply (perp_of this o) (-1))
                     (displacement_distance this o))
          as [[Heq Hmin] | (o2 & Hin & Hq & Hlt & Heq & Hmin)].
        -- right. exists o. split; [left; reflexivity|].
           split; [exact Q|]. split; [exact C|]. split; [exact Heq|].
           intros o' [<-|Hin'] Hq'; [lra | apply Hmin; assumption].
        -- right. exists o2. split; [right; exact Hin|].
           split; [exact Hq|]. split; [lra|]. split; [exact Heq|].
           intros o' [<-|Hin'] Hq'; [lra | apply Hmin; assumption].
      * destruct (IH vec cd)
          as [[Heq Hmin] | (o2 & Hin & Hq & Hlt & Heq & Hmin)].
        -- left. split; [exact Heq|].
           intros o' [<-|Hin'] Hq'; [lra | apply Hmin; assumption].
        -- right. exists o2. split; [right; exact Hin|].
           split; [exact Hq|]. split; [exact Hlt|]. split; [exact Heq|].
           intros o' [<-|Hin'] Hq'; [lra | apply Hmin; assumption].
    + destruct (IH vec cd)
        as [[Heq Hmin] | (o2 & Hin & Hq & Hlt & Heq & Hmin)].
      * left. split; [exact Heq|].
        intros o' [<-|Hin'] Hq'; [contradiction | apply Hmin; assumption].
      * right. exists o2. split; [right; exact Hin|].
        split; [exact Hq|]. split; [exact Hlt|]. split; [exact Heq|].
        intros o' [<-|Hin'] Hq'; [contradiction | apply Hmin; assumption].
Qed.

End Obstacles.



(** The last step of [getObstacleVector]: the vector is normalised. *)
Lemma getObstacleVector_normalize (this : Boid) (obs : list Obstacle.t) :
  getObstacleVector this obs =
  Point.normalize (fst (obstacle_loop this obs Point.zero closestDist0)).
Proof.
  unfold getObstacleVector.
  set (vec := fst (obstacle_loop this obs Point.zero closestDist0)).
  destruct (Rgt_dec (Point.length vec) 0) as [G|G]; [reflexivity|].
  assert (E : Point.length vec = 0) by (pose proof (length_nonneg vec); lra).
  apply length_zero_iff in E. rewrite E.
  unfold Point.normalize. rewrite setLength_zero. reflexivity.
Qed.

(** A boid at rest is deflected by no obstacle. *)
Lemma getObstacleVector_at_rest (this : Boid) (obs : list Obstacle.t) :
  velocity this = Point.zero -> getObstacleVector this obs = Point.zero.
Proof.
  intros Hv.
  assert (H : forall vec cd, obstacle_loop this obs vec cd = (vec, cd)).
  { induction obs as [|o rest IH]; intros vec cd; [reflexivity|]. simpl.
    destruct (Req_dec_T (Point.length (velocity this)) 0) as [_|N];
      [apply IH|].
    exfalso. apply N, length_zero_iff, Hv. }
  rewrite getObstacleVector_normalize, H. simpl.
  unfold Point.normalize. apply setLength_zero.
Qed.





(** ** The order of the two loops of [onFrame] *)

Section Snapshot.

Variables (obs : list Obstacle.t) (rnd : nat -> Point.t).






End Snapshot.



(** [updateVelocity] writes the velocity and nothing else. *)
Lemma updateVelocity_shape (self : nat) (this : Boid) (bs : list Boid)
    (obs : list Obstacle.t) (r : Point.t) :
  updateVelocity self this bs obs r =
  set_velocity this (velocity (updateVelocity self this bs obs r)).
Proof.
  unfold updateVelocity.
  match goal with |- context [Rgt_dec ?a ?b] => destruct (Rgt_dec a b) end;
    reflexivity.
Qed.









(** ** Construction *)

Section Construction.

Variables (view_size : Size) (p : Parameters).
Variables (rnd_pos : Z -> Point.t) (rnd_angle : Z -> R).

(** The loop of the constructor stops by its own test when it is given
    enough rounds, and has then added one boid per index below
    [numBoids]. *)
Lemma generate_boids_length (fuel : nat) :
  forall (i : Z) (acc : list Boid),
    (Z.to_nat (p_numBoids p - i) <= fuel)%nat ->
    length (generate_boids fuel i view_size p rnd_pos rnd_angle acc) =
    (length acc + Z.to_nat (p_numBoids p - i))%nat.
Proof.
  induction fuel as [|fuel IH]; intros i acc Hf; simpl.
  - lia.
  - destruct (Z.ltb_spec i (p_numBoids p)) as [Hlt|Hge].
    + rewrite IH by lia. rewrite length_app. simpl. lia.
    + lia.
Qed.

Lemma generate_boids_Forall (P : Boid -> Prop) (fuel : nat) :
  (forall pos vel,
     P (new_Boid pos vel (p_weights p) (p_followRadius p) (p_avoidRadius p)
          (p_maxSpeed p) (p_maxForce p))) ->
  forall (i : Z) (acc : list Boid),
    Forall P acc ->
    Forall P (generate_boids fuel i view_size p rnd_pos rnd_angle acc).
Proof.
  intros HP. induction fuel as [|fuel IH]; intros i acc Hacc; simpl.
  - exact Hacc.
  - destruct (i <? p_numBoids p)%Z; [|exact Hacc].
    apply IH. apply Forall_app. split; [exact Hacc|].
    constructor; [apply HP | constructor].
Qed.

(** C9, as the code has it: the constructor accepts every configuration
    and throws nothing.  It builds one boid per index below [numBoids],
    none when the count is negative, and stores the radii it is given,
    whatever their sign, in every boid and in the runner. *)
Theorem new_Runner_accepts :
  exists r : Runner,
    new_Runner view_size p rnd_pos rnd_angle = Returned r /\
    length (boids r) = Z.to_nat (p_numBoids p) /\
    ((p_numBoids p < 0)%Z -> boids r = []) /\
    Forall (fun b => followRadius b = p_followRadius p /\
                     avoidRadius b = p_avoidRadius p) (boids r) /\
    obstacleAffectRadius r = p_obstacleAffectRadius p /\
    obstacle_list r = [].
Proof.
  eexists. split; [reflexivity|]. simpl.
  assert (Hlen : length (generate_boids (Z.to_nat (p_numBoids p)) 0 view_size p
                           rnd_pos rnd_angle []) = Z.to_nat (p_numBoids p)).
  { rewrite generate_boids_length by (rewrite Z.sub_0_r; lia).
    rewrite Z.sub_0_r. reflexivity. }
  split; [exact Hlen|]. split; [|split; [|split; reflexivity]].
  - intros Hneg. apply length_zero_iff_nil. rewrite Hlen. lia.
  - apply generate_boids_Forall; [|constructor].
    intros pos vel. split; reflexivity.
Qed.

End Construction.

Lemma new_Runner_accepts_witness :
  exists r : Runner,
    new_Runner view100 negative_parameters rnd_pos0 rnd_angle0 = Returned r /\
    boids r = [].
Proof.
  destruct (new_Runner_accepts view100 negative_parameters rnd_pos0 rnd_angle0)
    as (r & Hr & _ & Hneg & _).
  exists r. split; [exact Hr|]. apply Hneg. simpl. lia.
Defined.

(** C9 as stated fails: a configuration with count -1 and radii -100 and
    -30 is not rejected; the constructor returns a runner without
    boids. *)
Lemma new_Runner_negative_not_rejected :
  (p_numBoids negative_parameters < 0)%Z /\
  p_followRadius negative_parameters < 0 /\
  p_avoidRadius negative_parameters < 0 /\
  p_obstacleAffectRadius negative_parameters < 0 /\
  (forall message : string,
     new_Runner view100 negative_parameters rnd_pos0 rnd_angle0
     <> Thrown message) /\
  new_Runner view100 negative_parameters rnd_pos0 rnd_angle0 =
    Returned (mkRunner (-1) 3 6 (3 / 100) (-100) (mkWeights 1 4 2 (4 / 10)) [] []).
Proof.
  simpl. repeat split; try lia; try lra. intros message. discriminate.
Qed.

(** The text fields of the sidebar let through digits and dots only, so a
    minus sign cannot be typed into them. *)
Lemma validateChars_allowed (s : string) :
  Forall (fun c => allowed_char c = true)
         (list_ascii_of_string (validateChars s)).
Proof.
  induction s as [|c rest IH]; simpl; [constructor|].
  destruct (allowed_char c) eqn:Hc; [|exact IH].
  simpl. constructor; [exact Hc | exact IH].
Qed.

Lemma validateChars_minus : validateChars "-100" = "100"%string.
Proof. reflexivity. Qed.

(** ** More on vectors *)

Lemma dot_le_lengths (p q : Point.t) :
  Point.dot p q <= Point.length p * Point.length q.
Proof.
  pose proof (length_nonneg p) as Hp. pose proof (length_nonneg q) as Hq.
  pose proof (length_sqr p) as Sp. pose proof (length_sqr q) as Sq.
  unfold Point.dot.
  set (a := Point.length p) in *. set (b := Point.length q) in *.
  set (px := Point.x p) in *. set (py := Point.y p) in *.
  set (qx := Point.x q) in *. set (qy := Point.y q) in *.
  destruct (Rle_or_lt (px * qx + py * qy) (a * b)) as [H|H]; [exact H|].
  exfalso.
  assert (H0 : 0 <= a * b) by (apply Rmult_le_pos; assumption).
  assert (H1 : (a * b) * (a * b) < (px * qx + py * qy) * (px * qx + py * qy))
    by nra.
  assert (H2 : (a * b) * (a * b)
               = (px * qx + py * qy) * (px * qx + py * qy)
                 + (px * qy - py * qx) * (px * qy - py * qx)).
  { replace (a * b * (a * b)) with ((a * a) * (b * b)) by ring.
    rewrite Sp, Sq. ring. }
  assert (H3 : 0 <= (px * qy - py * qx) * (px * qy - py * qx))
    by exact (Rle_0_sqr _).
  rewrite H2 in H1. lra.
Qed.

(** The triangle inequality. *)
Lemma length_add_le (p q : Point.t) :
  Point.length (Point.add p q) <= Point.length p + Point.length q.
Proof.
  pose proof (length_nonneg p) as Hp. pose proof (length_nonneg q) as Hq.
  pose proof (length_sqr p) as Sp. pose proof (length_sqr q) as Sq.
  pose proof (dot_le_lengths p q) as Hd. unfold Point.dot in Hd.
  apply length_le; [lra|]. simpl. nra.
Qed.

Lemma length_zero : Point.length Point.zero = 0.
Proof. apply length_zero_iff. reflexivity. Qed.

(** A normalised vector has length 1, or is the zero vector. *)
Lemma normalize_length (p : Point.t) :
  (p = Point.zero /\ Point.normalize p = Point.zero) \/
  (p <> Point.zero /\ Point.length (Point.normalize p) = 1).
Proof.
  destruct (Req_dec_T (Point.length p) 0) as [E|N].
  - left. apply length_zero_iff in E. split; [exact E|].
    rewrite E. unfold Point.normalize. apply setLength_zero.
  - right. split.
    + intros E. apply N, length_zero_iff, E.
    + unfold Point.normalize. rewrite length_setLength by exact N.
      apply Rabs_R1.
Qed.

Lemma normalize_length_le (p : Point.t) : Point.length (Point.normalize p) <= 1.
Proof.
  destruct (normalize_length p) as [[_ ->]|[_ ->]]; [rewrite length_zero|]; lra.
Qed.

(** [clamp_to] scales by a factor between 0 and 1. *)
Lemma clamp_to_scale (v : Point.t) (m : R) :
  0 <= m ->
  exists k : R, 0 <= k <= 1 /\ clamp_to v m = Point.multiply v k /\
                (Point.length v <= m -> k = 1).
Proof.
  intros Hm. unfold clamp_to.
  destruct (Rgt_dec (Point.length v) m) as [G|G].
  - exists (m / Point.length v).
    assert (Hpos : 0 < Point.length v) by lra.
    split; [|split].
    + split.
      * apply Rmult_le_pos; [exact Hm|]. apply Rlt_le, Rinv_0_lt_compat, Hpos.
      * apply (Rmult_le_reg_r (Point.length v)); [exact Hpos|].
        unfold Rdiv. rewrite Rmult_assoc, Rinv_l by lra. lra.
    + unfold Point.setLength.
      destruct (Req_dec_T (Point.length v) 0); [lra|reflexivity].
    + intros Hle. lra.
  - exists 1. split; [lra|]. split; [|reflexivity].
    apply point_eq; simpl; ring.
Qed.

(** ** The velocity update as a whole *)

Lemma updateVelocity_total (self : nat) (this : Boid) (bs : list Boid)
    (obs : list Obstacle.t) (rnd : Point.t) :
  velocity (updateVelocity self this bs obs rnd) =
  clamp_to (Point.add (velocity this) (total_force self this bs obs rnd))
           (maxSpeed this).
Proof.
  unfold updateVelocity, total_force, clamp_to, applyForce. simpl.
  rewrite <- !add_assoc.
  match goal with |- context [Rgt_dec ?a ?b] => destruct (Rgt_dec a b) end;
    reflexivity.
Qed.

(** X1: the velocity [updateVelocity] leaves is the old velocity plus the
    five forces, scaled by a factor between 0 and 1; the factor is 1 when
    the sum is within [maxSpeed], so the clamp changes the speed and never
    the heading. *)
Theorem updateVelocity_scaled (self : nat) (this : Boid) (bs : list Boid)
    (obs : list Obstacle.t) (rnd : Point.t) :
  0 <= maxSpeed this ->
  let u := Point.add (velocity this) (total_force self this bs obs rnd) in
  exists k : R,
    0 <= k <= 1 /\
    velocity (updateVelocity self this bs obs rnd) = Point.multiply u k /\
    (Point.length u <= maxSpeed this -> k = 1).
Proof.
  intros Hm u. rewrite updateVelocity_total. apply clamp_to_scale, Hm.
Qed.

Lemma updateVelocity_scaled_witness :
  0 <= maxSpeed boid_origin /\
  exists k : R,
    0 <= k <= 1 /\
    velocity (updateVelocity 0 boid_origin [boid_origin] [] (rnd_centre 0)) =
    Point.multiply
      (Point.add (velocity boid_origin)
         (total_force 0 boid_origin [boid_origin] [] (rnd_centre 0))) k.
Proof.
  assert (Hm : 0 <= maxSpeed boid_origin) by (simpl; lra).
  split; [exact Hm|].
  destruct (updateVelocity_scaled 0 boid_origin [boid_origin] []
              (rnd_centre 0) Hm) as (k & Hk & Hv & _).
  exists k. split; [exact Hk | exact Hv].
Defined.

Lemma length_multiply_le (p : Point.t) (k m : R) :
  Point.length p <= m -> Point.length (Point.multiply p k) <= Rabs k * m.
Proof.
  intros H. rewrite length_multiply.
  apply Rmult_le_compat_l; [apply Rabs_pos | exact H].
Qed.





(** X3: the obstacle force is the zero vector or a vector of length 1,
    for every boid and every list of obstacles. *)
Theorem getObstacleVector_zero_or_unit (this : Boid) (obs : list Obstacle.t) :
  getObstacleVector this obs = Point.zero \/
  Point.length (getObstacleVector this obs) = 1.
Proof.
  rewrite getObstacleVector_normalize.
  destruct (normalize_length (fst (obstacle_loop this obs Point.zero closestDist0)))
    as [[_ H]|[_ H]]; [left|right]; exact H.
Qed.

(** ** More on the obstacle scan *)

(** X4: a boid at rest gets no obstacle force, whatever the obstacles:
    the projection on its line of flight is a division of zero by zero. *)
Theorem getObstacleVector_resting (this : Boid) (obs : list Obstacle.t) :
  velocity this = Point.zero -> getObstacleVector this obs = Point.zero.
Proof. apply getObstacleVector_at_rest. Qed.

Lemma getObstacleVector_resting_witness :
  velocity boid_resting = Point.zero /\
  getObstacleVector boid_resting [obstacle_ahead; obstacle_thin] = Point.zero.
Proof.
  split; [reflexivity|].
  apply (getObstacleVector_resting boid_resting). reflexivity.
Defined.

(** Moving an obstacle along the line of flight does not change its
    perpendicular offset. *)
Lemma perp_of_shift (this : Boid) (o o' : Obstacle.t) (t : R) :
  velocity this <> Point.zero ->
  Obstacle.position o' =
    Point.add (Obstacle.position o) (Point.multiply (velocity this) t) ->
  perp_of this o' = perp_of this o.
Proof.
  intros Hv Hp.
  pose proof (moving_length this Hv) as N.
  pose proof (length_sqr (velocity this)) as Hs.
  unfold perp_of. rewrite Hp. unfold Point.dot.
  set (L := Point.length (velocity this)) in *.
  set (vx := Point.x (velocity this)) in *.
  set (vy := Point.y (velocity this)) in *.
  apply point_eq; simpl; fold vx vy.
  - match goal with
    | |- ?l = ?r =>
        replace l with (r + vx * t * (1 - (vx * vx + vy * vy) / (L * L)))
          by (field; exact N)
    end.
    rewrite <- Hs. field. exact N.
  - match goal with
    | |- ?l = ?r =>
        replace l with (r + vy * t * (1 - (vx * vx + vy * vy) / (L * L)))
          by (field; exact N)
    end.
    rewrite <- Hs. field. exact N.
Qed.

Lemma normalize_zero : Point.normalize Point.zero = Point.zero.
Proof. unfold Point.normalize. apply setLength_zero. Qed.

Lemma multiply_zero_l (k : R) : Point.multiply Point.zero k = Point.zero.
Proof. apply point_eq; simpl; ring. Qed.

(** The scan of a single obstacle. *)
Lemma getObstacleVector_single (this : Boid) (o : Obstacle.t) :
  velocity this <> Point.zero ->
  getObstacleVector this [o] =
  if Rlt_dec (Point.length (perp_of this o)) (Obstacle.affectRadius o)
  then if Rlt_dec (displacement_distance this o) closestDist0
       then Point.normalize (Point.multiply (perp_of this o) (-1))
       else Point.zero
  else Point.zero.
Proof.
  intros Hv. rewrite getObstacleVector_normalize. simpl.
  destruct (Req_dec_T (Point.length (velocity this)) 0) as [E|_];
    [exfalso; exact (moving_length this Hv E)|].
  fold (displacement_distance this o).
  destruct (Rlt_dec (Point.length (perp_of this o)) (Obstacle.affectRadius o));
    [destruct (Rlt_dec (displacement_distance this o) closestDist0)|];
    simpl; try reflexivity; apply normalize_zero.
Qed.

(** X5: the scan tests the whole line of flight, not the part ahead of
    the boid: an obstacle moved along the direction of the velocity,
    forwards or backwards, deflects the boid in the same way. *)
Theorem getObstacleVector_line_test (this : Boid) (o o' : Obstacle.t) (t : R) :
  velocity this <> Point.zero ->
  Obstacle.position o' =
    Point.add (Obstacle.position o) (Point.multiply (velocity this) t) ->
  Obstacle.affectRadius o' = Obstacle.affectRadius o ->
  displacement_distance this o < closestDist0 ->
  displacement_distance this o' < closestDist0 ->
  getObstacleVector this [o'] = getObstacleVector this [o].
Proof.
  intros Hv Hp Hr Hd Hd'.
  rewrite !getObstacleVector_single by exact Hv.
  rewrite (perp_of_shift this o o' t Hv Hp), Hr.
  destruct (Rlt_dec (Point.length (perp_of this o)) (Obstacle.affectRadius o));
    [|reflexivity].
  destruct (Rlt_dec (displacement_distance this o) closestDist0); [|lra].
  destruct (Rlt_dec (displacement_distance this o') closestDist0); [|lra].
  reflexivity.
Qed.

Lemma getObstacleVector_line_test_witness :
  velocity boid_origin <> Point.zero /\
  Obstacle.position obstacle_behind =
    Point.add (Obstacle.position obstacle_ahead)
              (Point.multiply (velocity boid_origin) (-10)) /\
  getObstacleVector boid_origin [obstacle_behind] =
  getObstacleVector boid_origin [obstacle_ahead].
Proof.
  assert (Hv : velocity boid_origin <> Point.zero)
    by (apply point_neq_x; simpl; lra).
  assert (Hp : Obstacle.position obstacle_behind =
               Point.add (Obstacle.position obstacle_ahead)
                         (Point.multiply (velocity boid_origin) (-10)))
    by (apply point_eq; simpl; lra).
  split; [exact Hv|]. split; [exact Hp|].
  apply (getObstacleVector_line_test boid_origin obstacle_ahead
           obstacle_behind (-10) Hv Hp eq_refl);
    unfold displacement_distance, closestDist0; apply length_lt; simpl; lra.
Defined.




(** ** More on the neighbour scans *)

Section MoreScans.

Variables (self : nat) (this : Boid).

Lemma subtract_add (p q r : Point.t) :
  Point.subtract (Point.subtract p q) r = Point.subtract p (Point.add q r).
Proof. apply point_eq; simpl; ring. Qed.

Lemma subtract_zero_r (p : Point.t) : Point.subtract p Point.zero = p.
Proof. apply point_eq; simpl; ring. Qed.

(** The loop of [getAvoidanceVector] subtracts one vector per neighbour. *)
Lemma avoidance_loop_sum (bs : list Boid) :
  forall (i : nat) (acc : Point.t),
    let seen :=
      map snd
        (List.filter
           (fun ib => negb (fst ib =? self)%nat
                      && within this (avoidRadius this) (snd ib))
           (zip (seq i (length bs)) bs)) in
    avoidance_loop self this i bs acc =
    Point.subtract acc
      (sum_points
         (map (fun b =>
                 Point.divide (Point.normalize (displacement_to this b))
                              (Point.length (displacement_to this b)))
              seen)).
Proof.
  induction bs as [|b rest IH]; intros i acc seen.
  - simpl. rewrite subtract_zero_r. reflexivity.
  - subst seen. simpl.
    destruct (Nat.eq_dec i self) as [E|NE].
    + rewrite (proj2 (Nat.eqb_eq i self) E). simpl. apply IH.
    + rewrite (proj2 (Nat.eqb_neq i self) NE). simpl.
      destruct (Rlt_dec _ (avoidRadius this)) as [L|L].
      * rewrite (within_true _ _ _ L). simpl.
        rewrite IH, subtract_add. reflexivity.
      * rewrite (within_false _ _ _ L). apply IH.
Qed.

Lemma repulsion_term (d : Point.t) :
  d <> Point.zero ->
  Point.divide (Point.normalize d) (Point.length d) =
  Point.divide d (Point.length d * Point.length d).
Proof.
  intros Hd.
  assert (N : Point.length d <> 0) by (intros E; apply Hd, length_zero_iff, E).
  unfold Point.normalize, Point.setLength.
  destruct (Req_dec_T (Point.length d) 0); [contradiction|].
  apply point_eq; simpl; field; exact N.
Qed.

(** X7: the avoidance force is the steering function applied to the sum,
    over the other boids closer than [avoidRadius], of the vector that
    points from the neighbour to the boid and has length 1 over their
    distance; with no such neighbour it is the zero vector.  No neighbour
    sits at the very point of the boid. *)
Theorem getAvoidanceVector_repulsion (bs : list Boid) :
  let near := neighborsWithin self this (avoidRadius this) bs in
  Forall (fun b => position (instance b) <> position (instance this)) near ->
  getAvoidanceVector self this bs =
    getSteer this
      (Point.multiply
         (sum_points
            (map (fun b =>
                    Point.divide (displacement_to this b)
                      (Point.length (displacement_to this b)
                       * Point.length (displacement_to this b)))
                 near))
         (-1)) /\
  (near = [] -> getAvoidanceVector self this bs = Point.zero).
Proof.
  intros near Hapart. unfold getAvoidanceVector.
  rewrite avoidance_loop_sum. cbv zeta.
  unfold neighborsWithin in near. fold near.
  assert (Hmap :
    map (fun b =>
           Point.divide (Point.normalize (displacement_to this b))
                        (Point.length (displacement_to this b)))
        near
    = map (fun b =>
             Point.divide (displacement_to this b)
               (Point.length (displacement_to this b)
                * Point.length (displacement_to this b)))
          near).
  { clear -Hapart. induction Hapart as [|b rest Hb _ IH]; [reflexivity|].
    simpl. rewrite IH. f_equal. apply repulsion_term.
    intros E. apply Hb. unfold displacement_to in E. apply point_eq.
    - apply (f_equal Point.x) in E. simpl in E. lra.
    - apply (f_equal Point.y) in E. simpl in E. lra. }
  rewrite Hmap. split.
  - f_equal. apply point_eq; simpl; ring.
  - intros Hn. rewrite Hn. simpl. rewrite subtract_zero_r.
    apply getSteer_zero.
Qed.

End MoreScans.

Lemma getAvoidanceVector_repulsion_witness :
  Forall (fun b => position (instance b) <> position (instance boid_origin))
         (neighborsWithin 0 boid_origin (avoidRadius boid_origin)
            [boid_origin; boid_near]) /\
  neighborsWithin 0 boid_origin (avoidRadius boid_origin)
    [boid_origin; boid_near] = [boid_near] /\
  getAvoidanceVector 0 boid_origin [boid_origin; boid_near] =
    getSteer boid_origin (Point.mk (- (1 / 3)) 0).
Proof.
  assert (Hn : neighborsWithin 0 boid_origin (avoidRadius boid_origin)
                 [boid_origin; boid_near] = [boid_near]).
  { unfold neighborsWithin. simpl. rewrite within_true; [reflexivity|].
    apply length_lt; simpl; lra. }
  assert (Hf : Forall (fun b => position (instance b)
                                <> position (instance boid_origin))
                 (neighborsWithin 0 boid_origin (avoidRadius boid_origin)
                    [boid_origin; boid_near])).
  { rewrite Hn. constructor; [|constructor]. apply point_neq_x. simpl. lra. }
  split; [exact Hf|]. split; [exact Hn|].
  rewrite (proj1 (getAvoidanceVector_repulsion 0 boid_origin
                    [boid_origin; boid_near] Hf)).
  rewrite Hn. f_equal.
  assert (Hl : Point.length (displacement_to boid_origin boid_near) = 3)
    by (apply length_eq; simpl; lra).
  simpl. rewrite Hl. apply point_eq; simpl; lra.
Defined.

(** ** A boid on its own *)

Section Alone.

Variables (self : nat) (this : Boid).

Lemma zip_seq_In (bs : list Boid) :
  forall (i j : nat) (b : Boid),
    bs !! j = Some b -> In ((i + j)%nat, b) (zip (seq i (length bs)) bs).
Proof.
  induction bs as [|b0 rest IH]; intros i j b Hb; [discriminate|].
  destruct j as [|j]; simpl in *.
  - injection Hb as ->. left. f_equal. lia.
  - right. replace (i + S j)%nat with (S i + j)%nat by lia.
    apply IH, Hb.
Qed.

(** When the radius query is empty, every other boid fails the test. *)
Lemma neighborsWithin_nil (radius : R) (bs : list Boid) (j : nat) (b : Boid) :
  neighborsWithin self this radius bs = [] ->
  bs !! j = Some b -> j <> self -> within this radius b = false.
Proof.
  unfold neighborsWithin. intros Hn Hb Hj.
  apply map_eq_nil in Hn.
  destruct (within this radius b) eqn:Hw; [|reflexivity].
  exfalso.
  assert (Hin : In (j, b)
                  (List.filter
                     (fun ib => negb (fst ib =? self)%nat
                                && within this radius (snd ib))
                     (zip (seq 0 (length bs)) bs))).
  { apply filter_In. split; [exact (zip_seq_In bs 0 j b Hb)|]. simpl.
    rewrite (proj2 (Nat.eqb_neq j self) Hj), Hw. reflexivity. }
  rewrite Hn in Hin. exact Hin.
Qed.

Lemma sum_points_const (c : Point.t) (ps : list Point.t) :
  Forall (fun p => p = c) ps ->
  sum_points ps = Point.multiply c (INR (length ps)).
Proof.
  induction 1 as [|p rest -> _ IH].
  - simpl. apply point_eq; simpl; ring.
  - change (length (c :: rest)) with (S (length rest)). rewrite S_INR.
    simpl. rewrite IH. apply point_eq; simpl; ring.
Qed.

(** A boid that sees no boid but itself has nothing to cohere with. *)
Lemma cohesion_desired_alone (bs : list Boid) :
  bs !! self = Some this ->
  0 < followRadius this ->
  neighborsWithin self this (followRadius this) bs = [] ->
  cohesion_desired this bs = Point.zero.
Proof.
  intros Hself Hr Hn.
  assert (Hme : within this (followRadius this) this = true).
  { apply within_true.
    replace (Point.subtract (position (instance this)) (position (instance this)))
      with Point.zero by (apply point_eq; simpl; ring).
    rewrite length_zero. exact Hr. }
  set (seen := allWithin this (followRadius this) bs).
  assert (Hne : seen <> []).
  { intros E.
    assert (Hin : In this seen).
    { apply filter_In. split; [|exact Hme].
      apply list_elem_of_In, list_elem_of_lookup. exists self. exact Hself. }
    rewrite E in Hin. exact Hin. }
  assert (Hall : Forall (fun p => p = position (instance this))
                        (map (fun b => position (instance b)) seen)).
  { apply List.Forall_forall. intros p Hp.
    apply in_map_iff in Hp. destruct Hp as (b & <- & Hb).
    apply filter_In in Hb. destruct Hb as [Hb Hw].
    apply list_elem_of_In, list_elem_of_lookup in Hb. destruct Hb as [j Hj].
    destruct (Nat.eq_dec j self) as [->|Hne'].
    - rewrite Hself in Hj. injection Hj as <-. reflexivity.
    - rewrite (neighborsWithin_nil _ bs j b Hn Hj Hne') in Hw. discriminate. }
  unfold cohesion_desired. rewrite cohesion_loop_sum. cbv zeta.
  fold seen. rewrite add_zero_l, Nat.add_0_l.
  rewrite (sum_points_const _ _ Hall), length_map.
  destruct seen as [|b0 rest]; [contradiction|].
  change (0 <? length (b0 :: rest))%nat with true. cbv iota.
  assert (HN : INR (length (b0 :: rest)) <> 0).
  { apply not_0_INR. simpl. lia. }
  apply point_eq; simpl Point.x; simpl Point.y; field; exact HN.
Qed.

(** X8: a boid with a positive [followRadius] that has no other boid
    within [followRadius] or [avoidRadius], and no obstacle that
    qualifies, feels no force: its velocity changes by the noise alone,
    and is then clamped. *)
Theorem updateVelocity_alone (bs : list Boid) (obs : list Obstacle.t)
    (rnd : Point.t) :
  bs !! self = Some this ->
  0 < followRadius this ->
  neighborsWithin self this (followRadius this) bs = [] ->
  neighborsWithin self this (avoidRadius this) bs = [] ->
  (forall o, In o obs -> ~ qualifies this o) ->
  getCohesionVector this bs = Point.zero /\
  getAvoidanceVector self this bs = Point.zero /\
  getFollowVector self this bs = Point.zero /\
  getObstacleVector this obs = Point.zero /\
  velocity (updateVelocity self this bs obs rnd) =
    clamp_to (Point.add (velocity this) (noise_of rnd)) (maxSpeed this).
Proof.
  intros Hself Hr Hnf Hna Hobs.
  assert (Hc : getCohesionVector this bs = Point.zero).
  { unfold getCohesionVector.
    rewrite (cohesion_desired_alone bs Hself Hr Hnf). apply getSteer_zero. }
  assert (Ha : getAvoidanceVector self this bs = Point.zero).
  { unfold getAvoidanceVector. rewrite avoidance_loop_sum. cbv zeta.
    unfold neighborsWithin in Hna. rewrite Hna. simpl.
    rewrite subtract_zero_r. apply getSteer_zero. }
  assert (Hf : getFollowVector self this bs = Point.zero).
  { unfold getFollowVector. rewrite follow_loop_sum. cbv zeta.
    unfold neighborsWithin in Hnf. rewrite Hnf. simpl.
    rewrite add_zero_l. apply getSteer_zero. }
  assert (Ho : getObstacleVector this obs = Point.zero).
  { destruct (Req_dec_T (Point.length (velocity this)) 0) as [E|N].
    - apply getObstacleVector_at_rest, length_zero_iff, E.
    - assert (Hv : velocity this <> Point.zero).
      { intros E. apply N, length_zero_iff, E. }
      rewrite getObstacleVector_normalize.
      destruct (obstacle_loop_closest this Hv obs Point.zero closestDist0)
        as [[Heq _] | (o & Hin & Hq & _)].
      + rewrite Heq. apply normalize_zero.
      + exfalso. exact (Hobs o Hin Hq). }
  repeat (split; [assumption|]).
  rewrite updateVelocity_total. unfold total_force.
  rewrite Hc, Ha, Hf, Ho, !multiply_zero_l, !add_zero_l. reflexivity.
Qed.

End Alone.

Lemma updateVelocity_alone_witness :
  [boid_origin; boid_far] !! 0%nat = Some boid_origin /\
  0 < followRadius boid_origin /\
  neighborsWithin 0 boid_origin (followRadius boid_origin)
    [boid_origin; boid_far] = [] /\
  velocity (updateVelocity 0 boid_origin [boid_origin; boid_far] []
              (Point.mk 1 1)) =
    clamp_to (Point.add (velocity boid_origin) (noise_of (Point.mk 1 1)))
             (maxSpeed boid_origin).
Proof.
  assert (Hw : forall r, r <= 100 -> within boid_origin r boid_far = false).
  { intros r Hr. apply within_false. intros H.
    assert (Hl : Point.length
                   (Point.subtract (position (instance boid_far))
                                   (position (instance boid_origin))) = 500)
      by (apply length_eq; simpl; lra).
    rewrite Hl in H. lra. }
  assert (Hn : forall r, r <= 100 ->
            neighborsWithin 0 boid_origin r [boid_origin; boid_far] = []).
  { intros r Hr. unfold neighborsWithin. simpl. rewrite (Hw r Hr). reflexivity. }
  split; [reflexivity|]. split; [simpl; lra|].
  split; [apply Hn; simpl; lra|].
  apply (updateVelocity_alone 0 boid_origin [boid_origin; boid_far] []
           (Point.mk 1 1) eq_refl).
  - simpl. lra.
  - apply Hn. simpl. lra.
  - apply Hn. simpl. lra.
  - intros o [].
Defined.

(** ** What a frame keeps *)

Lemma updateVelocity_parameters (self : nat) (this : Boid) (bs : list Boid)
    (obs : list Obstacle.t) (r : Point.t) :
  parameters_of (updateVelocity self this bs obs r) = parameters_of this.
Proof. rewrite updateVelocity_shape. reflexivity. Qed.

(** X9: a frame neither adds nor removes a boid, and leaves every boid
    its weights, radii, top speed and top force. *)
Theorem onFrame_keeps_flock (view_size : Size) (bs : list Boid)
    (obs : list Obstacle.t) (rnd : nat -> Point.t) :
  length (onFrame view_size bs obs rnd) = length bs /\
  map parameters_of (onFrame view_size bs obs rnd) = map parameters_of bs.
Proof.
  unfold onFrame. rewrite update_all_map. split.
  - rewrite length_map. apply react_all_length.
  - rewrite map_map. apply list_eq. intros i. rewrite !list_lookup_fmap.
    destruct (bs !! i) as [b|] eqn:Hb.
    + rewrite (react_all_lookup obs rnd bs i b Hb). simpl. f_equal.
      change (parameters_of (update view_size (updateVelocity i b
                (take i (react_all bs obs rnd) ++ drop i bs) obs (rnd i))))
        with (parameters_of (updateVelocity i b
                (take i (react_all bs obs rnd) ++ drop i bs) obs (rnd i))).
      apply updateVelocity_parameters.
    + assert (Hn : react_all bs obs rnd !! i = None).
      { apply lookup_ge_None. rewrite react_all_length.
        apply lookup_ge_None. exact Hb. }
      rewrite Hn. reflexivity.
Qed.

(** ** More on the borders *)





(** ** More on steering *)

(** X12: [getSteer] looks at the direction of the desired vector only:
    a positive multiple of it gives the same steer. *)
Theorem getSteer_direction_only (this : Boid) (desired : Point.t) (k : R) :
  0 < k -> getSteer this (Point.multiply desired k) = getSteer this desired.
Proof. apply getSteer_multiply_pos. Qed.

Lemma getSteer_direction_only_witness :
  0 < 7 /\
  getSteer boid_origin (Point.multiply (Point.mk 3 4) 7) =
  getSteer boid_origin (Point.mk 3 4).
Proof.
  assert (H : 0 < 7) by lra.
  split; [exact H | apply (getSteer_direction_only boid_origin _ 7 H)].
Defined.

(** ** The flock a runner starts with *)

Section Start.

Variables (view_size : Size) (p : Parameters).
Variables (rnd_pos : Z -> Point.t) (rnd_angle : Z -> R).

Lemma generate_boids_Forall_round (P : Boid -> Prop) (fuel : nat) :
  (forall i : Z,
     P (new_Boid
          (Point.mk (Point.x (rnd_pos i) * width view_size)
                    (Point.y (rnd_pos i) * height view_size))
          (point_polar 3 (rnd_angle i * 360))
          (p_weights p) (p_followRadius p) (p_avoidRadius p)
          (p_maxSpeed p) (p_maxForce p))) ->
  forall (i : Z) (acc : list Boid),
    Forall P acc ->
    Forall P (generate_boids fuel i view_size p rnd_pos rnd_angle acc).
Proof.
  intros HP. induction fuel as [|fuel IH]; intros i acc Hacc; simpl.
  - exact Hacc.
  - destruct (i <? p_numBoids p)%Z; [|exact Hacc].
    apply IH. apply Forall_app. split; [exact Hacc|].
    constructor; [apply HP | constructor].
Qed.

Lemma point_polar_length (l a : R) :
  0 <= l -> Point.length (point_polar l a) = l.
Proof.
  intros Hl. apply length_eq; [exact Hl|]. simpl.
  pose proof (sin2_cos2 (a * PI / 180)) as H. unfold Rsqr in H. nra.
Qed.

(** X13: every boid of a new runner starts at speed 3, whatever
    [maxSpeed] is, so a runner configured with a top speed below 3 starts
    with every boid above it; and with random points drawn from the unit
    square every boid starts inside the view. *)
Theorem new_Runner_start (r : Runner) :
  new_Runner view_size p rnd_pos rnd_angle = Returned r ->
  Forall (fun b => Point.length (velocity b) = 3) (boids r) /\
  (p_maxSpeed p < 3 ->
   Forall (fun b => Point.length (velocity b) > maxSpeed b) (boids r)) /\
  (0 <= width view_size -> 0 <= height view_size ->
   (forall i, 0 <= Point.x (rnd_pos i) <= 1 /\ 0 <= Point.y (rnd_pos i) <= 1) ->
   Forall (fun b => in_view view_size (position (instance b))) (boids r)).
Proof.
  intros Hr. unfold new_Runner in Hr. injection Hr as <-. simpl.
  split; [|split].
  - apply generate_boids_Forall_round; [|constructor].
    intros i. simpl. apply point_polar_length. lra.
  - intros Hslow. apply generate_boids_Forall_round; [|constructor].
    intros i. simpl. rewrite point_polar_length by lra. lra.
  - intros Hw Hh Hrnd. apply generate_boids_Forall_round; [|constructor].
    intros i. unfold in_view. simpl. destruct (Hrnd i) as [Hx Hy]. nra.
Qed.

End Start.

Lemma new_Runner_start_witness :
  p_maxSpeed slow_parameters < 3 /\
  exists r : Runner,
    new_Runner view100 slow_parameters rnd_pos0 rnd_angle0 = Returned r /\
    Forall (fun b => Point.length (velocity b) > maxSpeed b) (boids r) /\
    Forall (fun b => in_view view100 (position (instance b))) (boids r).
Proof.
  assert (Hs : p_maxSpeed slow_parameters < 3) by (simpl; lra).
  split; [exact Hs|].
  eexists. split; [reflexivity|].
  destruct (new_Runner_start view100 slow_parameters rnd_pos0 rnd_angle0 _
              eq_refl) as (_ & Hfast & Hin).
  split.
  - exact (Hfast Hs).
  - apply Hin; simpl; try lra. intros i. lra.
Defined.

(** ** Placing obstacles *)

(** X14: clicks only ever append: after a series of clicks the list of
    obstacles is the old list followed by one obstacle per click, in the
    order of the clicks, each with the radius the runner was configured
    with; the boids and the configuration are untouched. *)
Theorem clicks_append (r : Runner) (points : list Point.t) :
  obstacle_list (clicks r points) =
    obstacle_list r
    ++ map (fun pt => Obstacle.mk pt (obstacleAffectRadius r)) points /\
  boids (clicks r points) = boids r /\
  obstacleAffectRadius (clicks r points) = obstacleAffectRadius r /\
  numBoids (clicks r points) = numBoids r.
Proof.
  unfold clicks. revert r.
  induction points as [|pt rest IH]; intros r; simpl.
  - rewrite app_nil_r. repeat split; reflexivity.
  - destruct (IH (onMouseDown r pt)) as (Ho & Hb & Hr & Hn).
    rewrite Ho, Hb, Hr, Hn. simpl. rewrite <- app_assoc.
    repeat split; reflexivity.
Qed.

(** ** More on the text fields *)

Lemma validateChars_fixed (s : string) :
  Forall (fun c => allowed_char c = true) (list_ascii_of_string s) ->
  validateChars s = s.
Proof.
  induction s as [|c rest IH]; simpl; intros H; [reflexivity|].
  inversion H as [|? ? Hc Hrest]; subst.
  rewrite Hc, IH by exact Hrest. reflexivity.
Qed.

(** X15: [validateChars] keeps exactly the digits and dots of a text, in
    their order: what it returns has no other character, a text made of
    digits and dots is returned as it is, no text grows, and filtering a
    second time changes nothing. *)
Theorem validateChars_filter (s : string) :
  list_ascii_of_string (validateChars s) =
    List.filter allowed_char (list_ascii_of_string s) /\
  Forall (fun c => allowed_char c = true)
         (list_ascii_of_string (validateChars s)) /\
  (String.length (validateChars s) <= String.length s)%nat /\
  validateChars (validateChars s) = validateChars s /\
  (validateChars s = s <->
   Forall (fun c => allowed_char c = true) (list_ascii_of_string s)).
Proof.
  split; [|split; [|split; [|split]]].
  - induction s as [|c rest IH]; simpl; [reflexivity|].
    destruct (allowed_char c); simpl; rewrite IH; reflexivity.
  - apply validateChars_allowed.
  - induction s as [|c rest IH]; simpl; [lia|].
    destruct (allowed_char c); simpl; lia.
  - apply validateChars_fixed, validateChars_allowed.
  - split.
    + intros E. rewrite <- E. apply validateChars_allowed.
    + apply validateChars_fixed.
Qed.

Lemma validateChars_filter_witness :
  validateChars "12.5" = "12.5"%string /\
  validateChars "-1e3 px" = "13"%string.
Proof.
  split.
  - apply (proj2 (proj2 (proj2 (proj2 (validateChars_filter "12.5"))))).
    repeat constructor.
  - reflexivity.
Defined.

(** ** The centroid of the arrow *)

(** X16: [centroid] throws exactly for a path of fewer than four
    segments; otherwise it returns the centre of gravity of the triangle
    of the nose and the two corners, a third of their sum, and does not
    look at the back indent. *)
Theorem centroid_triangle (segments : list Point.t) :
  (centroid segments = None <-> (length segments < 4)%nat) /\
  (forall s0 s1 s2 s3 rest,
     segments = s0 :: s1 :: s2 :: s3 :: rest ->
     centroid segments =
     Some (Point.divide (Point.add (Point.add s0 s1) s3) 3)).
Proof.
  split.
  - destruct segments as [|s0 [|s1 [|s2 [|s3 rest]]]]; simpl;
      split; intros H; try reflexivity; try lia; try discriminate.
  - intros s0 s1 s2 s3 rest ->. unfold centroid. simpl. f_equal.
    apply point_eq; simpl; field.
Qed.

Lemma centroid_triangle_witness :
  centroid [Point.mk 0 0; Point.mk 9 30; Point.mk 0 24; Point.mk (-9) 30]
  = Some (Point.divide
            (Point.add (Point.add (Point.mk 0 0) (Point.mk 9 30))
                       (Point.mk (-9) 30)) 3).
Proof.
  apply (proj2 (centroid_triangle
                  [Point.mk 0 0; Point.mk 9 30; Point.mk 0 24; Point.mk (-9) 30])
           _ _ _ _ [] eq_refl).
Defined.

(** ** The script version against the class *)

Lemma average_sum (vs : list Point.t) (n : nat) :
  n = length vs ->
  (if (0 <? n)%nat then Point.divide (sum_points vs) (INR n) else sum_points vs)
  = average vs.
Proof.
  intros ->. destruct vs as [|v rest]; reflexivity.
Qed.

Lemma dev_follow_average (self : nat) (this : Boid) (bs : list Boid) :
  Dev.getFollowVector self this bs = spec_following self this bs.
Proof.
  unfold Dev.getFollowVector, spec_following, neighborsWithin.
  rewrite follow_loop_sum. cbv zeta. rewrite add_zero_l, Nat.add_0_l.
  f_equal. apply average_sum. rewrite !length_map. reflexivity.
Qed.

Lemma dev_follow_class (self : nat) (this : Boid) (bs : list Boid) :
  Dev.getFollowVector self this bs = getFollowVector self this bs.
Proof.
  rewrite dev_follow_average.
  unfold getFollowVector, spec_following, neighborsWithin.
  rewrite follow_loop_sum. cbv zeta.
  rewrite getSteer_average, add_zero_l. reflexivity.
Qed.

(** X17: the script version of [getFollowVector], which does assign the
    quotient, returns the steering function applied to the average
    velocity of the neighbours, and that is the vector the class version
    returns from the sum. *)
Theorem dev_getFollowVector_average (self : nat) (this : Boid)
    (bs : list Boid) :
  Dev.getFollowVector self this bs = spec_following self this bs /\
  Dev.getFollowVector self this bs = getFollowVector self this bs.
Proof. split; [apply dev_follow_average | apply dev_follow_class]. Qed.

(** X18: the script version and the class compute the same obstacle
    force and the same velocity update: normalising without the test for
    a positive length, and adding the four weighted forces up before
    adding them to the velocity, change nothing. *)
Theorem dev_applyForce_same (self : nat) (this : Boid) (bs : list Boid)
    (obs : list Obstacle.t) (rnd : Point.t) :
  Dev.getObstacleVector this obs = getObstacleVector this obs /\
  Dev.applyForce self this bs obs rnd = updateVelocity self this bs obs rnd.
Proof.
  assert (Ho : Dev.getObstacleVector this obs = getObstacleVector this obs).
  { unfold Dev.getObstacleVector. symmetry. apply getObstacleVector_normalize. }
  split; [exact Ho|].
  rewrite (updateVelocity_shape self this bs obs rnd), updateVelocity_total.
  unfold Dev.applyForce, clamp_to, total_force, noise_of.
  rewrite Ho, dev_follow_class. simpl.
  set (c := Point.multiply (getCohesionVector this bs) _).
  set (a := Point.multiply (getAvoidanceVector self this bs) _).
  set (f := Point.multiply (getFollowVector self this bs) _).
  set (o := Point.multiply (getObstacleVector this obs) _).
  assert (E : Point.add
                (Point.add (velocity this)
                   (Point.add (Point.add (Point.add c a) f) o))
                (Point.multiply
                   (Point.multiply
                      (Point.subtract rnd (Point.mk (5 / 10) (5 / 10))) 2)
                   (1 / 10))
              = Point.add (velocity this)
                  (Point.add (Point.add (Point.add (Point.add c a) f) o)
                     (Point.multiply
                        (Point.subtract rnd (Point.mk (5 / 10) (5 / 10)))
                        (2 * (1 / 10)))))
    by (apply point_eq; simpl; ring).
  rewrite E.
  match goal with |- context [Rgt_dec ?x ?y] => destruct (Rgt_dec x y) end;
    reflexivity.
Qed.

(** ** The first version of the boid *)

Lemma clamp_to_length (v : Point.t) (m : R) :
  0 <= m -> Point.length (clamp_to v m) <= m.
Proof.
  intros Hm. unfold clamp_to.
  destruct (Rgt_dec (Point.length v) m) as [G|G]; [|lra].
  rewrite length_setLength by lra. rewrite Rabs_right by lra. lra.
Qed.

Lemma legacy_applyForce_velocity (self : nat) (this : Legacy.Boid)
    (bs : list Legacy.Boid) (rnd : Point.t) :
  Legacy.velocity (Legacy.applyForce self this bs rnd) =
  clamp_to
    (Point.setLength (Legacy.pushed self this bs rnd)
       (Point.length (Legacy.pushed self this bs rnd) + 1 / 10))
    (Legacy.maxSpeed this).
Proof.
  unfold Legacy.applyForce, clamp_to. simpl.
  fold (Legacy.rules self this bs). fold (Legacy.pushed self this bs rnd).
  match goal with |- context [Rgt_dec ?a ?b] => destruct (Rgt_dec a b) end;
    reflexivity.
Qed.

(** X19: [applyForce] of the first version leaves a speed of at most
    [maxSpeed], the speed-up of a tenth per frame included. *)
Theorem legacy_applyForce_speed (self : nat) (this : Legacy.Boid)
    (bs : list Legacy.Boid) (rnd : Point.t) :
  0 <= Legacy.maxSpeed this ->
  Point.length (Legacy.velocity (Legacy.applyForce self this bs rnd))
  <= Legacy.maxSpeed this.
Proof.
  intros Hm. rewrite legacy_applyForce_velocity. apply clamp_to_length, Hm.
Qed.

Lemma legacy_applyForce_speed_witness :
  0 <= Legacy.maxSpeed old_a /\
  Point.length (Legacy.velocity (Legacy.applyForce 0 old_a [old_a; old_b]
                                   (Point.mk 1 0)))
  <= Legacy.maxSpeed old_a.
Proof.
  assert (Hm : 0 <= Legacy.maxSpeed old_a) by (simpl; lra).
  split; [exact Hm | apply (legacy_applyForce_speed 0 old_a _ _ Hm)].
Defined.

(** X20: in the first version a boid that is moving after the rules and
    the noise were added gains a tenth of speed per frame until it is at
    [maxSpeed]: its new speed is the smaller of the old speed plus 0.1 and
    [maxSpeed], and its heading is kept. *)
Theorem legacy_speed_up (self : nat) (this : Legacy.Boid)
    (bs : list Legacy.Boid) (rnd : Point.t) :
  let u := Legacy.pushed self this bs rnd in
  u <> Point.zero ->
  0 <= Legacy.maxSpeed this ->
  Point.length (Legacy.velocity (Legacy.applyForce self this bs rnd)) =
    Rmin (Point.length u + 1 / 10) (Legacy.maxSpeed this) /\
  exists k : R,
    0 <= k /\
    Legacy.velocity (Legacy.applyForce self this bs rnd) = Point.multiply u k.
Proof.
  intros u Hu Hm. rewrite legacy_applyForce_velocity. fold u.
  assert (N : Point.length u <> 0) by (intros E; apply Hu, length_zero_iff, E).
  pose proof (length_nonneg u) as Hpos.
  assert (HL : 0 < Point.length u) by lra.
  set (L := Point.length u) in *.
  assert (Hs : Point.setLength u (L + 1 / 10) = Point.multiply u ((L + 1 / 10) / L)).
  { unfold Point.setLength. fold L.
    destruct (Req_dec_T L 0); [contradiction|reflexivity]. }
  assert (Hls : Point.length (Point.setLength u (L + 1 / 10)) = L + 1 / 10).
  { rewrite length_setLength by exact N. apply Rabs_right. lra. }
  unfold clamp_to. rewrite Hls.
  destruct (Rgt_dec (L + 1 / 10) (Legacy.maxSpeed this)) as [G|G].
  - split.
    + rewrite length_setLength by (rewrite Hls; lra).
      rewrite Rabs_right by lra. rewrite Rmin_right by lra. reflexivity.
    + exists ((L + 1 / 10) / L * (Legacy.maxSpeed this / (L + 1 / 10))).
      split.
      * apply Rmult_le_pos.
        -- apply Rmult_le_pos; [lra|]. apply Rlt_le, Rinv_0_lt_compat, HL.
        -- apply Rmult_le_pos; [lra|]. apply Rlt_le, Rinv_0_lt_compat. lra.
      * unfold Point.setLength at 1. rewrite Hls.
        destruct (Req_dec_T (L + 1 / 10) 0); [lra|].
        rewrite Hs. apply point_eq; simpl; ring.
  - split.
    + rewrite Hls, Rmin_left by lra. reflexivity.
    + exists ((L + 1 / 10) / L). split; [|exact Hs].
      apply Rmult_le_pos; [lra|]. apply Rlt_le, Rinv_0_lt_compat, HL.
Qed.

(** X21: the three rules of the first version return normalised
    vectors, so what they add to the velocity in one frame is no longer
    than the sum of the absolute values of the three weights. *)
Theorem legacy_rules_bounded (self : nat) (this : Legacy.Boid)
    (bs : list Legacy.Boid) :
  Point.length (Legacy.getCohesionVector self this bs) <= 1 /\
  Point.length (Legacy.getAvoidanceVector self this bs) <= 1 /\
  Point.length (Legacy.getFollowVector self this bs) <= 1 /\
  Point.length (Legacy.rules self this bs) <=
    Rabs (Legacy.w0 (Legacy.weights this))
    + Rabs (Legacy.w1 (Legacy.weights this))
    + Rabs (Legacy.w2 (Legacy.weights this)).
Proof.
  assert (Hc : Point.length (Legacy.getCohesionVector self this bs) <= 1).
  { unfold Legacy.getCohesionVector.
    destruct (Legacy.cohesion_loop self this 0 bs Point.zero 0) as [v n].
    apply normalize_length_le. }
  assert (Ha : Point.length (Legacy.getAvoidanceVector self this bs) <= 1)
    by apply normalize_length_le.
  assert (Hf : Point.length (Legacy.getFollowVector self this bs) <= 1).
  { unfold Legacy.getFollowVector.
    destruct (Legacy.follow_loop self this 0 bs Point.zero 0) as [v n].
    apply normalize_length_le. }
  repeat (split; [assumption|]).
  unfold Legacy.rules.
  pose proof (length_multiply_le _ (Legacy.w0 (Legacy.weights this)) _ Hc).
  pose proof (length_multiply_le _ (Legacy.w1 (Legacy.weights this)) _ Ha).
  pose proof (length_multiply_le _ (Legacy.w2 (Legacy.weights this)) _ Hf).
  set (c := Point.multiply (Legacy.getCohesionVector self this bs) _) in *.
  set (a := Point.multiply (Legacy.getAvoidanceVector self this bs) _) in *.
  set (f := Point.multiply (Legacy.getFollowVector self this bs) _) in *.
  pose proof (length_add_le c a).
  pose proof (length_add_le (Point.add c a) f).
  lra.
Qed.

Section LegacyAlone.

Variables (self : nat) (this : Legacy.Boid).


Lemma out_of_reach_tail (radius : R) (i : nat) (b : Legacy.Boid)
    (rest : list Legacy.Boid) :
  Legacy.out_of_reach self this radius i (b :: rest) ->
  Legacy.out_of_reach self this radius (S i) rest.
Proof.
  intros H j b' Hb' Hj. apply (H (S j) b'); [exact Hb' | lia].
Qed.

Lemma out_of_reach_head (radius : R) (i : nat) (b : Legacy.Boid)
    (rest : list Legacy.Boid) :
  Legacy.out_of_reach self this radius i (b :: rest) -> i <> self ->
  ~ Point.length
      (Point.subtract (Legacy.position b) (Legacy.position this)) < radius.
Proof.
  intros H Hi Hlt.
  pose proof (H 0%nat b eq_refl ltac:(lia)) as Hge. lra.
Qed.

Lemma legacy_cohesion_loop_alone (bs : list Legacy.Boid) :
  forall (i : nat) (acc : Point.t) (n : nat),
    Legacy.out_of_reach self this (Legacy.perceptionRadius this) i bs ->
    Legacy.cohesion_loop self this i bs acc n = (acc, n).
Proof.
  induction bs as [|b rest IH]; intros i acc n H; [reflexivity|]. simpl.
  destruct (Nat.eq_dec i self) as [E|NE];
    [apply IH, (out_of_reach_tail _ _ _ _ H)|].
  destruct (Rlt_dec _ (Legacy.perceptionRadius this)) as [L|_];
    [exfalso; exact (out_of_reach_head _ _ _ _ H NE L)|].
  apply IH, (out_of_reach_tail _ _ _ _ H).
Qed.

Lemma legacy_follow_loop_alone (bs : list Legacy.Boid) :
  forall (i : nat) (acc : Point.t) (n : nat),
    Legacy.out_of_reach self this (Legacy.perceptionRadius this) i bs ->
    Legacy.follow_loop self this i bs acc n = (acc, n).
Proof.
  induction bs as [|b rest IH]; intros i acc n H; [reflexivity|]. simpl.
  destruct (Nat.eq_dec i self) as [E|NE];
    [apply IH, (out_of_reach_tail _ _ _ _ H)|].
  destruct (Rlt_dec _ (Legacy.perceptionRadius this)) as [L|_];
    [exfalso; exact (out_of_reach_head _ _ _ _ H NE L)|].
  apply IH, (out_of_reach_tail _ _ _ _ H).
Qed.

Lemma legacy_avoidance_loop_alone (bs : list Legacy.Boid) :
  forall (i : nat) (acc : Point.t),
    Legacy.out_of_reach self this (Legacy.avoidanceRadius this) i bs ->
    Legacy.avoidance_loop self this i bs acc = acc.
Proof.
  induction bs as [|b rest IH]; intros i acc H; [reflexivity|]. simpl.
  destruct (Nat.eq_dec i self) as [E|NE];
    [apply IH, (out_of_reach_tail _ _ _ _ H)|].
  destruct (Rlt_dec _ (Legacy.avoidanceRadius this)) as [L|_];
    [exfalso; exact (out_of_reach_head _ _ _ _ H NE L)|].
  apply IH, (out_of_reach_tail _ _ _ _ H).
Qed.

Lemma legacy_rules_alone (bs : list Legacy.Boid) :
  (forall (j : nat) (b : Legacy.Boid),
     bs !! j = Some b -> j <> self ->
     Legacy.perceptionRadius this
     <= Point.length (Point.subtract (Legacy.position b) (Legacy.position this))
     /\ Legacy.avoidanceRadius this
        <= Point.length (Point.subtract (Legacy.position b) (Legacy.position this))) ->
  Legacy.getCohesionVector self this bs = Point.zero /\
  Legacy.getAvoidanceVector self this bs = Point.zero /\
  Legacy.getFollowVector self this bs = Point.zero /\
  Legacy.rules self this bs = Point.zero.
Proof.
  intros H.
  assert (Hp : Legacy.out_of_reach self this (Legacy.perceptionRadius this) 0 bs).
  { intros j b Hb Hj. exact (proj1 (H j b Hb Hj)). }
  assert (Ha : Legacy.out_of_reach self this (Legacy.avoidanceRadius this) 0 bs).
  { intros j b Hb Hj. exact (proj2 (H j b Hb Hj)). }
  assert (Hc : Legacy.getCohesionVector self this bs = Point.zero).
  { unfold Legacy.getCohesionVector.
    rewrite (legacy_cohesion_loop_alone bs 0 _ _ Hp). apply normalize_zero. }
  assert (Hav : Legacy.getAvoidanceVector self this bs = Point.zero).
  { unfold Legacy.getAvoidanceVector.
    rewrite (legacy_avoidance_loop_alone bs 0 _ Ha). apply normalize_zero. }
  assert (Hf : Legacy.getFollowVector self this bs = Point.zero).
  { unfold Legacy.getFollowVector.
    rewrite (legacy_follow_loop_alone bs 0 _ _ Hp). apply normalize_zero. }
  repeat (split; [assumption|]).
  unfold Legacy.rules. rewrite Hc, Hav, Hf, !multiply_zero_l, !add_zero_l.
  reflexivity.
Qed.

(** X22: in the first version a boid with no other boid within its two
    radii gets the zero vector from each of its three rules, cohesion
    among them: the boid itself is skipped by every scan. *)
Theorem legacy_alone (bs : list Legacy.Boid) :
  (forall (j : nat) (b : Legacy.Boid),
     bs !! j = Some b -> j <> self ->
     Legacy.perceptionRadius this
     <= Point.length (Point.subtract (Legacy.position b) (Legacy.position this))
     /\ Legacy.avoidanceRadius this
        <= Point.length (Point.subtract (Legacy.position b) (Legacy.position this))) ->
  Legacy.getCohesionVector self this bs = Point.zero /\
  Legacy.getAvoidanceVector self this bs = Point.zero /\
  Legacy.getFollowVector self this bs = Point.zero /\
  Legacy.rules self this bs = Point.zero.
Proof. apply legacy_rules_alone. Qed.

End LegacyAlone.

Lemma old_a_alone :
  forall (j : nat) (b : Legacy.Boid),
    [old_a; old_far] !! j = Some b -> j <> 0%nat ->
    Legacy.perceptionRadius old_a
    <= Point.length (Point.subtract (Legacy.position b) (Legacy.position old_a))
    /\ Legacy.avoidanceRadius old_a
       <= Point.length (Point.subtract (Legacy.position b) (Legacy.position old_a)).
Proof.
  intros [|[|j]] b Hb Hj; [contradiction | | discriminate].
  injection Hb as <-.
  assert (Hl : Point.length (Point.subtract (Legacy.position old_far)
                                            (Legacy.position old_a)) = 500)
    by (apply length_eq; simpl; lra).
  rewrite Hl. simpl. lra.
Qed.

Lemma legacy_alone_witness :
  Legacy.getCohesionVector 0 old_a [old_a; old_far] = Point.zero /\
  Legacy.rules 0 old_a [old_a; old_far] = Point.zero.
Proof.
  destruct (legacy_alone 0 old_a [old_a; old_far] old_a_alone)
    as (Hc & _ & _ & Hr).
  split; [exact Hc | exact Hr].
Defined.

Lemma old_a_pushed :
  Legacy.pushed 0 old_a [old_a; old_far] (Point.mk (5 / 10) (5 / 10))
  = Point.mk 3 0.
Proof.
  unfold Legacy.pushed.
  rewrite (proj2 (proj2 (proj2
             (legacy_rules_alone 0 old_a [old_a; old_far] old_a_alone)))).
  apply point_eq; simpl; lra.
Qed.

Lemma legacy_speed_up_witness :
  Legacy.pushed 0 old_a [old_a; old_far] (Point.mk (5 / 10) (5 / 10))
    <> Point.zero /\
  0 <= Legacy.maxSpeed old_a /\
  Point.length (Legacy.velocity (Legacy.applyForce 0 old_a [old_a; old_far]
                                   (Point.mk (5 / 10) (5 / 10)))) = 31 / 10.
Proof.
  assert (Hu : Legacy.pushed 0 old_a [old_a; old_far]
                 (Point.mk (5 / 10) (5 / 10)) <> Point.zero).
  { rewrite old_a_pushed. apply point_neq_x. simpl. lra. }
  assert (Hm : 0 <= Legacy.maxSpeed old_a) by (simpl; lra).
  split; [exact Hu|]. split; [exact Hm|].
  rewrite (proj1 (legacy_speed_up 0 old_a [old_a; old_far] _ Hu Hm)).
  rewrite old_a_pushed.
  assert (Hl : Point.length (Point.mk 3 0) = 3) by (apply length_eq; simpl; lra).
  rewrite Hl. simpl. rewrite Rmin_left by lra. lra.
Defined.

(** X23: [update] of the first version leaves the boid in the closed
    rectangle of a view of non-negative size and does not touch its
    velocity, weights, radii or top speed. *)
Theorem legacy_update_in_view (view_size : Size) (this : Legacy.Boid) :
  0 <= width view_size -> 0 <= height view_size ->
  in_view view_size (Legacy.position (Legacy.update view_size this)) /\
  Legacy.velocity (Legacy.update view_size this) = Legacy.velocity this /\
  Legacy.weights (Legacy.update view_size this) = Legacy.weights this /\
  Legacy.perceptionRadius (Legacy.update view_size this)
    = Legacy.perceptionRadius this /\
  Legacy.avoidanceRadius (Legacy.update view_size this)
    = Legacy.avoidanceRadius this /\
  Legacy.maxSpeed (Legacy.update view_size this) = Legacy.maxSpeed this.
Proof.
  intros Hw Hh. split; [|repeat split; reflexivity].
  unfold in_view. simpl. split; apply wrap_range; assumption.
Qed.

Lemma legacy_update_in_view_witness :
  0 <= width view100 /\ 0 <= height view100 /\
  in_view view100 (Legacy.position (Legacy.update view100 old_far)).
Proof.
  assert (Hw : 0 <= width view100) by (simpl; lra).
  assert (Hh : 0 <= height view100) by (simpl; lra).
  split; [exact Hw|]. split; [exact Hh|].
  exact (proj1 (legacy_update_in_view view100 old_far Hw Hh)).
Defined.
